(** * Relocation of the install-path entries of [_sysconfigdata__win32_.py]

    The module under study consists of one dictionary literal
    ([build_time_vars]), a list of keys ([keys_to_replace]), the
    derivation of the build-time install prefix from the ['BINDIR'] entry,
    and a loop that rewrites the listed entries with [str.replace].  This
    file embeds these four pieces and proves the properties that the
    specification states about them. *)

From Stdlib Require Import String Ascii ZArith List Lia Bool.
From stdpp Require Import gmap strings.

Import ListNotations.

(** ** Python strings

    The table holds 7-bit text only, so a Python [str] is embedded as a
    Rocq [string]; the operations below are the ones the module calls. *)

Module Str.

(** [len(s)] *)
Definition len (s : string) : nat := String.length s.

(** [s.startswith(p)] *)
Fixpoint startswith (p s : string) : bool :=
  match p, s with
  | EmptyString, _ => true
  | String _ _, EmptyString => false
  | String a p', String b s' => if Ascii.eqb a b then startswith p' s' else false
  end.

(** [p in s] *)
Fixpoint contains (p s : string) : bool :=
  if startswith p s then true
  else match s with
       | EmptyString => false
       | String _ s' => contains p s'
       end.

(** [s[n:]] for a non-negative [n] *)
Fixpoint drop (n : nat) (s : string) : string :=
  match n, s with
  | O, _ => s
  | S _, EmptyString => EmptyString
  | S n', String _ s' => drop n' s'
  end.

(** [s[:n]] for a non-negative [n] *)
Fixpoint take (n : nat) (s : string) : string :=
  match n, s with
  | O, _ => EmptyString
  | S _, EmptyString => EmptyString
  | S n', String c s' => String c (take n' s')
  end.

(** [s[:-k]]: a negative stop counts from the end and is clamped at the
    start of the string, which is what truncated subtraction computes. *)
Definition slice_to_neg (k : nat) (s : string) : string :=
  take (len s - k) s.

(** [s.replace("", new)]: [new] goes before every character and at the
    end. *)
Fixpoint interleave (new s : string) : string :=
  match s with
  | EmptyString => new
  | String c s' => new +:+ String c (interleave new s')
  end.

(** The left-to-right scan of [s.replace(old, new)] for a non-empty
    [old].  [skip] counts the characters of the occurrence matched last
    that are still to be passed over, so that occurrences never overlap. *)
Fixpoint replace_scan (old new : string) (skip : nat) (s : string) : string :=
  match s with
  | EmptyString => EmptyString
  | String c s' =>
      match skip with
      | S k => replace_scan old new k s'
      | O =>
          if startswith old s
          then new +:+ replace_scan old new (len old - 1) s'
          else String c (replace_scan old new 0 s')
      end
  end.

(** [s.replace(old, new)] *)
Definition replace (old new s : string) : string :=
  match old with
  | EmptyString => interleave new s
  | String _ _ => replace_scan old new 0 s
  end.

(** Some non-empty suffix of [x] is a prefix of [y]. *)
Fixpoint border (x y : string) : bool :=
  match x with
  | EmptyString => false
  | String _ x' => if startswith x y then true else border x' y
  end.

(** [old] and [new] do not overlap: neither occurs in the other and no
    non-empty end of one is a start of the other. *)
Definition no_overlap (old new : string) : bool :=
  negb (contains old new) && negb (contains new old)
  && negb (border old new) && negb (border new old).

(** Some non-empty proper suffix of [s] is a prefix of [s]. *)
Definition self_border (s : string) : bool :=
  match s with
  | EmptyString => false
  | String _ s' => border s' s
  end.

(** [old] occurs in [s] as a substring. *)
Definition occurs (old s : string) : Prop :=
  exists a b, s = a +:+ old +:+ b.

(** Every occurrence of [old] in [s] starts at offset [n] or later. *)
Definition first_at (old : string) (n : nat) (s : string) : Prop :=
  forall a b, s = a +:+ old +:+ b -> n <= len a.

(** What "replace every occurrence of [old] by [new]" means for a
    non-empty [old], read from left to right: a string without an
    occurrence is kept; otherwise the text [u] before the leftmost
    occurrence is kept, the occurrence becomes [new], and the rest [t] of
    the string is treated the same way. *)
Inductive Replaced (old new : string) : string -> string -> Prop :=
| Replaced_none s :
    ~ occurs old s -> Replaced old new s s
| Replaced_first u t t' :
    first_at old (len u) (u +:+ old +:+ t) ->
    Replaced old new t t' ->
    Replaced old new (u +:+ old +:+ t) (u +:+ new +:+ t').

End Str.

(** ** Values, exceptions and outcomes *)

(** The values of the table are [str] or [int] objects. *)
Inductive value : Type :=
| VStr (s : string)
| VInt (n : Z).

(** The exceptions the module body can raise. *)
Inductive exn : Type :=
| KeyError (key : string)
| TypeError
| AttributeError.

(** The double quote character, for the values that contain one. *)
Definition dquote : string := String (ascii_of_nat 34) EmptyString.

(** A dictionary display: the items are stored from left to right, a later
    item replacing an earlier one with the same key. *)
Definition dict_display (items : list (string * value)) : gmap string value :=
  fold_left (fun m kv => <[fst kv := snd kv]> m) items ∅.

(** ** The module

    The dictionary literal of the module, item by item. *)

Definition build_time_vars_items : list (string * value) :=
  [
    ("ABIFLAGS", VStr EmptyString);
    ("AC_APPLE_UNIVERSAL_BUILD", VInt 0);
    ("AIX_BUILDDATE", VInt 0);
    ("AIX_GENUINE_CPLUSPLUS", VInt 0);
    ("ALT_SOABI", VInt 0);
    ("ANDROID_API_LEVEL", VInt 0);
    ("AR", VStr "ar");
    ("ARFLAGS", VStr "rcs");
    ("BASECFLAGS", VStr "-Wno-unused-result -Wsign-compare");
    ("BASECPPFLAGS", VStr "-IObjects -IInclude -IPython");
    ("BASEMODLIBS", VStr EmptyString);
    ("BINDIR", VStr "C:/buildroot/x86_64-1320-win32-seh-ucrt-rt_v11-rev0/mingw64/opt/bin");
    ("BINLIBDEST", VStr "C:/buildroot/x86_64-1320-win32-seh-ucrt-rt_v11-rev0/mingw64/opt/lib/python3.9");
    ("BLDLIBRARY", VStr "-L. -lpython3.9");
    ("BLDSHARED", VStr "x86_64-w64-mingw32-gcc -shared -Wl,--enable-auto-image-base -pipe -fno-ident -L/c/buildroot/x86_64-1320-win32-seh-ucrt-rt_v11-rev0/mingw64/opt/lib -L/c/buildroot/prerequisites/x86_64-zlib-static/lib -L/c/buildroot/prerequisites/x86_64-w64-mingw32-static/lib -LC:/buildroot/prerequisites/x86_64-zlib-static/lib -LC:/buildroot/x86_64-1320-win32-seh-ucrt-rt_v11-rev0/mingw64/opt/lib");
    ("BUILDEXE", VStr ".exe");
    ("BUILDPYTHON", VStr "python.exe");
    ("BUILDPYTHONW", VStr "pythonw.exe");
    ("BUILDVENVLAUNCHER", VStr "venvlauncher.exe");
    ("BUILDVENVWLAUNCHER", VStr "venvwlauncher.exe");
    ("BUILD_GNU_TYPE", VStr "x86_64-w64-mingw32");
    ("BYTESTR_DEPS", VStr "\");
    ("CC", VStr "x86_64-w64-mingw32-gcc");
    ("CCSHARED", VStr EmptyString);
    ("CFLAGS", VStr "-Wno-unused-result -Wsign-compare -DNDEBUG -g -fwrapv -O3 -Wall -O2 -pipe -fno-ident -I/c/buildroot/x86_64-1320-win32-seh-ucrt-rt_v11-rev0/mingw64/opt/include -I/c/buildroot/prerequisites/x86_64-zlib-static/include -I/c/buildroot/prerequisites/x86_64-w64-mingw32-static/include -D__USE_MINGW_ANSI_STDIO=1");
    ("CFLAGSFORSHARED", VStr EmptyString);
    ("CFLAGS_ALIASING", VStr EmptyString);
    ("CONFIGFILES", VStr "configure configure.ac acconfig.h pyconfig.h.in Makefile.pre.in");
    ("CONFIGURE_CFLAGS", VStr "-O2 -pipe -fno-ident -I/c/buildroot/x86_64-1320-win32-seh-ucrt-rt_v11-rev0/mingw64/opt/include -I/c/buildroot/prerequisites/x86_64-zlib-static/include -I/c/buildroot/prerequisites/x86_64-w64-mingw32-static/include -D__USE_MINGW_ANSI_STDIO=1");
    ("CONFIGURE_CFLAGS_NODIST", VStr ("-std=c99 -Wextra -Wno-unused-result -Wno-unused-parameter -Wno-missing-field-initializers -Wstrict-prototypes -Werror=implicit-function-declaration -fvisibility=hidden -D_WIN32_WINNT=0x0601 -DMS_DLL_ID='" +:+ dquote +:+ "3.9" +:+ dquote +:+ "'"));
    ("CONFIGURE_CPPFLAGS", VStr "-I../../../src/Python-3.9.10/PC  -I/c/buildroot/x86_64-1320-win32-seh-ucrt-rt_v11-rev0/mingw64/opt/include -I/c/buildroot/prerequisites/x86_64-zlib-static/include -I/c/buildroot/prerequisites/x86_64-w64-mingw32-static/include -IC:/buildroot/x86_64-1320-win32-seh-ucrt-rt_v11-rev0/mingw64/opt/include -IC:/buildroot/x86_64-1320-win32-seh-ucrt-rt_v11-rev0/mingw64/opt/include/ncursesw -IC:/buildroot/prerequisites/x86_64-zlib-static/include -I.");
    ("CONFIGURE_LDFLAGS", VStr "-pipe -fno-ident -L/c/buildroot/x86_64-1320-win32-seh-ucrt-rt_v11-rev0/mingw64/opt/lib -L/c/buildroot/prerequisites/x86_64-zlib-static/lib -L/c/buildroot/prerequisites/x86_64-w64-mingw32-static/lib -LC:/buildroot/prerequisites/x86_64-zlib-static/lib -LC:/buildroot/x86_64-1320-win32-seh-ucrt-rt_v11-rev0/mingw64/opt/lib");
    ("CONFIGURE_LDFLAGS_NODIST", VStr EmptyString);
    ("CONFIG_ARGS", VStr "'--host=x86_64-w64-mingw32' '--build=x86_64-w64-mingw32' '--prefix=C:/buildroot/x86_64-1320-win32-seh-ucrt-rt_v11-rev0/mingw64/opt' '--enable-shared' '--with-system-expat' '--with-system-ffi' '--enable-loadable-sqlite-extensions' '--without-ensurepip' '--without-c-locale-coercion' '--enable-optimizations' 'LIBFFI_INCLUDEDIR=C:/buildroot/x86_64-1320-win32-seh-ucrt-rt_v11-rev0/mingw64/opt/lib/libffi-3.2.1/include' 'CFLAGS=-O2 -pipe -fno-ident -I/c/buildroot/x86_64-1320-win32-seh-ucrt-rt_v11-rev0/mingw64/opt/include -I/c/buildroot/prerequisites/x86_64-zlib-static/include -I/c/buildroot/prerequisites/x86_64-w64-mingw32-static/include -D__USE_MINGW_ANSI_STDIO=1' 'CPPFLAGS= -I/c/buildroot/x86_64-1320-win32-seh-ucrt-rt_v11-rev0/mingw64/opt/include -I/c/buildroot/prerequisites/x86_64-zlib-static/include -I/c/buildroot/prerequisites/x86_64-w64-mingw32-static/include -IC:/buildroot/x86_64-1320-win32-seh-ucrt-rt_v11-rev0/mingw64/opt/include -IC:/buildroot/x86_64-1320-win32-seh-ucrt-rt_v11-rev0/mingw64/opt/include/ncursesw -IC:/buildroot/prerequisites/x86_64-zlib-static/include' 'LDFLAGS=-pipe -fno-ident -L/c/buildroot/x86_64-1320-win32-seh-ucrt-rt_v11-rev0/mingw64/opt/lib -L/c/buildroot/prerequisites/x86_64-zlib-static/lib -L/c/buildroot/prerequisites/x86_64-w64-mingw32-static/lib -LC:/buildroot/prerequisites/x86_64-zlib-static/lib -LC:/buildroot/x86_64-1320-win32-seh-ucrt-rt_v11-rev0/mingw64/opt/lib' 'build_alias=x86_64-w64-mingw32' 'host_alias=x86_64-w64-mingw32'");
    ("CONFINCLUDEDIR", VStr "C:/buildroot/x86_64-1320-win32-seh-ucrt-rt_v11-rev0/mingw64/opt/include");
    ("CONFINCLUDEPY", VStr "C:/buildroot/x86_64-1320-win32-seh-ucrt-rt_v11-rev0/mingw64/opt/include/python3.9");
    ("COREPYTHONPATH", VStr EmptyString);
    ("COVERAGE_INFO", VStr "/c/buildroot/x86_64-1320-win32-seh-ucrt-rt_v11-rev0/build/Python-3.9.10/coverage.info");
    ("COVERAGE_REPORT", VStr "/c/buildroot/x86_64-1320-win32-seh-ucrt-rt_v11-rev0/build/Python-3.9.10/lcov-report");
    ("COVERAGE_REPORT_OPTIONS", VStr ("--no-branch-coverage --title " +:+ dquote +:+ "CPython lcov report" +:+ dquote));
    ("CPPFLAGS", VStr "-IObjects -IInclude -IPython -I. -I../../../src/Python-3.9.10/Include -I../../../src/Python-3.9.10/PC  -I/c/buildroot/x86_64-1320-win32-seh-ucrt-rt_v11-rev0/mingw64/opt/include -I/c/buildroot/prerequisites/x86_64-zlib-static/include -I/c/buildroot/prerequisites/x86_64-w64-mingw32-static/include -IC:/buildroot/x86_64-1320-win32-seh-ucrt-rt_v11-rev0/mingw64/opt/include -IC:/buildroot/x86_64-1320-win32-seh-ucrt-rt_v11-rev0/mingw64/opt/include/ncursesw -IC:/buildroot/prerequisites/x86_64-zlib-static/include -I.");
    ("CXX", VStr "x86_64-w64-mingw32-c++");
    ("DESTDIR", VStr EmptyString);
    ("DESTDIRFINAL", VStr "/");
    ("DESTDIRS", VStr "C:/buildroot/x86_64-1320-win32-seh-ucrt-rt_v11-rev0/mingw64/opt C:/buildroot/x86_64-1320-win32-seh-ucrt-rt_v11-rev0/mingw64/opt/lib C:/buildroot/x86_64-1320-win32-seh-ucrt-rt_v11-rev0/mingw64/opt/lib/python3.9 C:/buildroot/x86_64-1320-win32-seh-ucrt-rt_v11-rev0/mingw64/opt/lib/python3.9/lib-dynload");
    ("DESTLIB", VStr "C:/buildroot/x86_64-1320-win32-seh-ucrt-rt_v11-rev0/mingw64/opt/lib/python3.9");
    ("DESTPATH", VStr EmptyString);
    ("DESTSHARED", VStr "C:/buildroot/x86_64-1320-win32-seh-ucrt-rt_v11-rev0/mingw64/opt/lib/python3.9/lib-dynload");
    ("DFLAGS", VStr EmptyString);
    ("DIRMODE", VInt 755);
    ("DIST", VStr "README.rst ChangeLog configure configure.ac acconfig.h pyconfig.h.in Makefile.pre.in Include Lib Misc Ext-dummy");
    ("DISTDIRS", VStr "Include Lib Misc Ext-dummy");
    ("DISTFILES", VStr "README.rst ChangeLog configure configure.ac acconfig.h pyconfig.h.in Makefile.pre.in");
    ("DLINCLDIR", VStr ".");
    ("DLLLIBRARY", VStr "libpython3.9.dll");
    ("DOUBLE_IS_ARM_MIXED_ENDIAN_IEEE754", VInt 0);
    ("DOUBLE_IS_BIG_ENDIAN_IEEE754", VInt 0);
    ("DOUBLE_IS_LITTLE_ENDIAN_IEEE754", VInt 1);
    ("DTRACE", VStr EmptyString);
    ("DTRACE_DEPS", VStr "\");
    ("DTRACE_HEADERS", VStr EmptyString);
    ("DTRACE_OBJS", VStr EmptyString);
    ("DYNLOADFILE", VStr "dynload_win.o");
    ("ENABLE_IPV6", VInt 0);
    ("ENSUREPIP", VStr "no");
    ("EXE", VStr ".exe");
    ("EXEMODE", VInt 755);
    ("EXPORTSFROM", VStr EmptyString);
    ("EXPORTSYMS", VStr EmptyString);
    ("EXTRATESTOPTS", VStr EmptyString);
    ("EXTRA_CFLAGS", VStr EmptyString);
    ("EXT_SUFFIX", VStr ".cp39-mingw_x86_64_ucrt.pyd");
    ("FILEMODE", VInt 644);
    ("FLOAT_WORDS_BIGENDIAN", VInt 0);
    ("FLOCK_NEEDS_LIBBSD", VInt 0);
    ("GETPGRP_HAVE_ARG", VInt 0);
    ("GITBRANCH", VStr "git --git-dir ../../../src/Python-3.9.10/.git name-rev --name-only HEAD");
    ("GITTAG", VStr "git --git-dir ../../../src/Python-3.9.10/.git describe --all --always --dirty");
    ("GITVERSION", VStr "git --git-dir ../../../src/Python-3.9.10/.git rev-parse --short HEAD");
    ("GNULD", VStr "yes");
    ("HAVE_ACCEPT4", VInt 0);
    ("HAVE_ACOSH", VInt 1);
    ("HAVE_ADDRINFO", VInt 1);
    ("HAVE_ALARM", VInt 0);
    ("HAVE_ALIGNED_REQUIRED", VInt 0);
    ("HAVE_ALLOCA_H", VInt 0);
    ("HAVE_ALTZONE", VInt 0);
    ("HAVE_ASINH", VInt 1);
    ("HAVE_ASM_TYPES_H", VInt 0);
    ("HAVE_ATANH", VInt 1);
    ("HAVE_BIND_TEXTDOMAIN_CODESET", VInt 0);
    ("HAVE_BLUETOOTH_BLUETOOTH_H", VInt 0);
    ("HAVE_BLUETOOTH_H", VInt 0);
    ("HAVE_BROKEN_MBSTOWCS", VInt 0);
    ("HAVE_BROKEN_NICE", VInt 0);
    ("HAVE_BROKEN_PIPE_BUF", VInt 0);
    ("HAVE_BROKEN_POLL", VInt 0);
    ("HAVE_BROKEN_POSIX_SEMAPHORES", VInt 0);
    ("HAVE_BROKEN_PTHREAD_SIGMASK", VInt 0);
    ("HAVE_BROKEN_SEM_GETVALUE", VInt 0);
    ("HAVE_BROKEN_UNSETENV", VInt 0);
    ("HAVE_BUILTIN_ATOMIC", VInt 1);
    ("HAVE_CHFLAGS", VInt 0);
    ("HAVE_CHOWN", VInt 0);
    ("HAVE_CHROOT", VInt 0);
    ("HAVE_CLOCK", VInt 1);
    ("HAVE_CLOCK_GETRES", VInt 0);
    ("HAVE_CLOCK_GETTIME", VInt 0);
    ("HAVE_CLOCK_SETTIME", VInt 0);
    ("HAVE_COMPUTED_GOTOS", VInt 1);
    ("HAVE_CONFSTR", VInt 0);
    ("HAVE_CONIO_H", VInt 1);
    ("HAVE_COPYSIGN", VInt 1);
    ("HAVE_COPY_FILE_RANGE", VInt 0);
    ("HAVE_CRYPT_H", VInt 0);
    ("HAVE_CRYPT_R", VInt 0);
    ("HAVE_CTERMID", VInt 0);
    ("HAVE_CTERMID_R", VInt 0);
    ("HAVE_CURSES_FILTER", VInt 0);
    ("HAVE_CURSES_H", VInt 0);
    ("HAVE_CURSES_HAS_KEY", VInt 0);
    ("HAVE_CURSES_IMMEDOK", VInt 0);
    ("HAVE_CURSES_IS_PAD", VInt 0);
    ("HAVE_CURSES_IS_TERM_RESIZED", VInt 0);
    ("HAVE_CURSES_RESIZETERM", VInt 0);
    ("HAVE_CURSES_RESIZE_TERM", VInt 0);
    ("HAVE_CURSES_SYNCOK", VInt 0);
    ("HAVE_CURSES_TYPEAHEAD", VInt 0);
    ("HAVE_CURSES_USE_ENV", VInt 0);
    ("HAVE_CURSES_WCHGAT", VInt 0);
    ("HAVE_DECL_ISFINITE", VInt 1);
    ("HAVE_DECL_ISINF", VInt 1);
    ("HAVE_DECL_ISNAN", VInt 1);
    ("HAVE_DECL_RTLD_DEEPBIND", VInt 0);
    ("HAVE_DECL_RTLD_GLOBAL", VInt 0);
    ("HAVE_DECL_RTLD_LAZY", VInt 0);
    ("HAVE_DECL_RTLD_LOCAL", VInt 0);
    ("HAVE_DECL_RTLD_MEMBER", VInt 0);
    ("HAVE_DECL_RTLD_NODELETE", VInt 0);
    ("HAVE_DECL_RTLD_NOLOAD", VInt 0);
    ("HAVE_DECL_RTLD_NOW", VInt 0);
    ("HAVE_DECL_TZNAME", VInt 1);
    ("HAVE_DEVICE_MACROS", VInt 0);
    ("HAVE_DEV_PTC", VInt 0);
    ("HAVE_DEV_PTMX", VInt 0);
    ("HAVE_DIRECT_H", VInt 1);
    ("HAVE_DIRENT_D_TYPE", VInt 0);
    ("HAVE_DIRENT_H", VInt 1);
    ("HAVE_DIRFD", VInt 0);
    ("HAVE_DLFCN_H", VInt 0);
    ("HAVE_DLOPEN", VInt 0);
    ("HAVE_DUP2", VInt 1);
    ("HAVE_DUP3", VInt 0);
    ("HAVE_DYLD_SHARED_CACHE_CONTAINS_PATH", VInt 0);
    ("HAVE_DYNAMIC_LOADING", VInt 1);
    ("HAVE_ENDIAN_H", VInt 0);
    ("HAVE_EPOLL", VInt 0);
    ("HAVE_EPOLL_CREATE1", VInt 0);
    ("HAVE_ERF", VInt 1);
    ("HAVE_ERFC", VInt 1);
    ("HAVE_ERRNO_H", VInt 1);
    ("HAVE_EXECV", VInt 1);
    ("HAVE_EXPLICIT_BZERO", VInt 0);
    ("HAVE_EXPLICIT_MEMSET", VInt 0);
    ("HAVE_EXPM1", VInt 1);
    ("HAVE_FACCESSAT", VInt 0);
    ("HAVE_FCHDIR", VInt 0);
    ("HAVE_FCHMOD", VInt 0);
    ("HAVE_FCHMODAT", VInt 0);
    ("HAVE_FCHOWN", VInt 0);
    ("HAVE_FCHOWNAT", VInt 0);
    ("HAVE_FCNTL_H", VInt 1);
    ("HAVE_FDATASYNC", VInt 0);
    ("HAVE_FDOPENDIR", VInt 0);
    ("HAVE_FDWALK", VInt 0);
    ("HAVE_FEXECVE", VInt 0);
    ("HAVE_FINITE", VInt 1);
    ("HAVE_FLOCK", VInt 0);
    ("HAVE_FORK", VInt 0);
    ("HAVE_FORKPTY", VInt 0);
    ("HAVE_FPATHCONF", VInt 0);
    ("HAVE_FSEEK64", VInt 0);
    ("HAVE_FSEEKO", VInt 1);
    ("HAVE_FSTATAT", VInt 0);
    ("HAVE_FSTATVFS", VInt 0);
    ("HAVE_FSYNC", VInt 0);
    ("HAVE_FTELL64", VInt 0);
    ("HAVE_FTELLO", VInt 1);
    ("HAVE_FTIME", VInt 1);
    ("HAVE_FTRUNCATE", VInt 0);
    ("HAVE_FUTIMENS", VInt 0);
    ("HAVE_FUTIMES", VInt 0);
    ("HAVE_FUTIMESAT", VInt 0);
    ("HAVE_GAI_STRERROR", VInt 0);
    ("HAVE_GAMMA", VInt 0);
    ("HAVE_GCC_ASM_FOR_MC68881", VInt 0);
    ("HAVE_GCC_ASM_FOR_X64", VInt 1);
    ("HAVE_GCC_ASM_FOR_X87", VInt 1);
    ("HAVE_GCC_UINT128_T", VInt 1);
    ("HAVE_GETADDRINFO", VInt 0);
    ("HAVE_GETC_UNLOCKED", VInt 0);
    ("HAVE_GETENTROPY", VInt 0);
    ("HAVE_GETGRGID_R", VInt 0);
    ("HAVE_GETGRNAM_R", VInt 0);
    ("HAVE_GETGROUPLIST", VInt 0);
    ("HAVE_GETGROUPS", VInt 0);
    ("HAVE_GETHOSTBYNAME", VInt 0);
    ("HAVE_GETHOSTBYNAME_R", VInt 0);
    ("HAVE_GETHOSTBYNAME_R_3_ARG", VInt 0);
    ("HAVE_GETHOSTBYNAME_R_5_ARG", VInt 0);
    ("HAVE_GETHOSTBYNAME_R_6_ARG", VInt 0);
    ("HAVE_GETITIMER", VInt 0);
    ("HAVE_GETLOADAVG", VInt 0);
    ("HAVE_GETLOGIN", VInt 1);
    ("HAVE_GETNAMEINFO", VInt 0);
    ("HAVE_GETPAGESIZE", VInt 0);
    ("HAVE_GETPEERNAME", VInt 1);
    ("HAVE_GETPGID", VInt 0);
    ("HAVE_GETPGRP", VInt 0);
    ("HAVE_GETPID", VInt 1);
    ("HAVE_GETPRIORITY", VInt 0);
    ("HAVE_GETPWENT", VInt 0);
    ("HAVE_GETPWNAM_R", VInt 0);
    ("HAVE_GETPWUID_R", VInt 0);
    ("HAVE_GETRANDOM", VInt 0);
    ("HAVE_GETRANDOM_SYSCALL", VInt 0);
    ("HAVE_GETRESGID", VInt 0);
    ("HAVE_GETRESUID", VInt 0);
    ("HAVE_GETSID", VInt 0);
    ("HAVE_GETSPENT", VInt 0);
    ("HAVE_GETSPNAM", VInt 0);
    ("HAVE_GETWD", VInt 0);
    ("HAVE_GLIBC_MEMMOVE_BUG", VInt 0);
    ("HAVE_GRP_H", VInt 0);
    ("HAVE_HSTRERROR", VInt 0);
    ("HAVE_HTOLE64", VInt 0);
    ("HAVE_HYPOT", VInt 1);
    ("HAVE_IEEEFP_H", VInt 1);
    ("HAVE_IF_NAMEINDEX", VInt 0);
    ("HAVE_INET_ATON", VInt 0);
    ("HAVE_INET_PTON", VInt 1);
    ("HAVE_INITGROUPS", VInt 0);
    ("HAVE_INTTYPES_H", VInt 1);
    ("HAVE_IO_H", VInt 1);
    ("HAVE_IPA_PURE_CONST_BUG", VInt 0);
    ("HAVE_KILL", VInt 0);
    ("HAVE_KILLPG", VInt 0);
    ("HAVE_KQUEUE", VInt 0);
    ("HAVE_LANGINFO_H", VInt 0);
    ("HAVE_LARGEFILE_SUPPORT", VInt 1);
    ("HAVE_LCHFLAGS", VInt 0);
    ("HAVE_LCHMOD", VInt 0);
    ("HAVE_LCHOWN", VInt 0);
    ("HAVE_LGAMMA", VInt 1);
    ("HAVE_LIBDL", VInt 0);
    ("HAVE_LIBDLD", VInt 0);
    ("HAVE_LIBIEEE", VInt 0);
    ("HAVE_LIBINTL_H", VInt 0);
    ("HAVE_LIBREADLINE", VInt 1);
    ("HAVE_LIBRESOLV", VInt 0);
    ("HAVE_LIBSENDFILE", VInt 0);
    ("HAVE_LIBUTIL_H", VInt 0);
    ("HAVE_LIBUUID", VInt 0);
    ("HAVE_LINK", VInt 0);
    ("HAVE_LINKAT", VInt 0);
    ("HAVE_LINUX_CAN_BCM_H", VInt 0);
    ("HAVE_LINUX_CAN_H", VInt 0);
    ("HAVE_LINUX_CAN_J1939_H", VInt 0);
    ("HAVE_LINUX_CAN_RAW_FD_FRAMES", VInt 0);
    ("HAVE_LINUX_CAN_RAW_H", VInt 0);
    ("HAVE_LINUX_CAN_RAW_JOIN_FILTERS", VInt 0);
    ("HAVE_LINUX_MEMFD_H", VInt 0);
    ("HAVE_LINUX_NETLINK_H", VInt 0);
    ("HAVE_LINUX_QRTR_H", VInt 0);
    ("HAVE_LINUX_RANDOM_H", VInt 0);
    ("HAVE_LINUX_TIPC_H", VInt 0);
    ("HAVE_LINUX_VM_SOCKETS_H", VInt 0);
    ("HAVE_LINUX_WAIT_H", VInt 0);
    ("HAVE_LOCKF", VInt 0);
    ("HAVE_LOG1P", VInt 1);
    ("HAVE_LOG2", VInt 1);
    ("HAVE_LONG_DOUBLE", VInt 1);
    ("HAVE_LSTAT", VInt 0);
    ("HAVE_LUTIMES", VInt 0);
    ("HAVE_MADVISE", VInt 0);
    ("HAVE_MAKEDEV", VInt 0);
    ("HAVE_MBRTOWC", VInt 1);
    ("HAVE_MEMFD_CREATE", VInt 0);
    ("HAVE_MEMORY_H", VInt 1);
    ("HAVE_MEMRCHR", VInt 0);
    ("HAVE_MKDIRAT", VInt 0);
    ("HAVE_MKFIFO", VInt 0);
    ("HAVE_MKFIFOAT", VInt 0);
    ("HAVE_MKNOD", VInt 0);
    ("HAVE_MKNODAT", VInt 0);
    ("HAVE_MKTIME", VInt 1);
    ("HAVE_MMAP", VInt 0);
    ("HAVE_MREMAP", VInt 0);
    ("HAVE_NCURSES_H", VInt 0);
    ("HAVE_NDIR_H", VInt 0);
    ("HAVE_NETPACKET_PACKET_H", VInt 0);
    ("HAVE_NET_IF_H", VInt 0);
    ("HAVE_NICE", VInt 0);
    ("HAVE_NON_UNICODE_WCHAR_T_REPRESENTATION", VInt 0);
    ("HAVE_OPENAT", VInt 0);
    ("HAVE_OPENPTY", VInt 0);
    ("HAVE_PATHCONF", VInt 0);
    ("HAVE_PAUSE", VInt 0);
    ("HAVE_PIPE2", VInt 0);
    ("HAVE_PLOCK", VInt 0);
    ("HAVE_POLL", VInt 0);
    ("HAVE_POLL_H", VInt 0);
    ("HAVE_POSIX_FADVISE", VInt 0);
    ("HAVE_POSIX_FALLOCATE", VInt 0);
    ("HAVE_POSIX_SPAWN", VInt 0);
    ("HAVE_POSIX_SPAWNP", VInt 0);
    ("HAVE_PREAD", VInt 0);
    ("HAVE_PREADV", VInt 0);
    ("HAVE_PREADV2", VInt 0);
    ("HAVE_PRLIMIT", VInt 0);
    ("HAVE_PROCESS_H", VInt 1);
    ("HAVE_PROTOTYPES", VInt 1);
    ("HAVE_PTHREAD_CONDATTR_SETCLOCK", VInt 0);
    ("HAVE_PTHREAD_DESTRUCTOR", VInt 0);
    ("HAVE_PTHREAD_GETCPUCLOCKID", VInt 0);
    ("HAVE_PTHREAD_H", VInt 0);
    ("HAVE_PTHREAD_INIT", VInt 0);
    ("HAVE_PTHREAD_KILL", VInt 0);
    ("HAVE_PTHREAD_SIGMASK", VInt 0);
    ("HAVE_PTY_H", VInt 0);
    ("HAVE_PWRITE", VInt 0);
    ("HAVE_PWRITEV", VInt 0);
    ("HAVE_PWRITEV2", VInt 0);
    ("HAVE_READLINK", VInt 0);
    ("HAVE_READLINKAT", VInt 0);
    ("HAVE_READV", VInt 0);
    ("HAVE_REALPATH", VInt 0);
    ("HAVE_RENAMEAT", VInt 0);
    ("HAVE_RL_APPEND_HISTORY", VInt 1);
    ("HAVE_RL_CATCH_SIGNAL", VInt 1);
    ("HAVE_RL_COMPLETION_APPEND_CHARACTER", VInt 1);
    ("HAVE_RL_COMPLETION_DISPLAY_MATCHES_HOOK", VInt 1);
    ("HAVE_RL_COMPLETION_MATCHES", VInt 1);
    ("HAVE_RL_COMPLETION_SUPPRESS_APPEND", VInt 1);
    ("HAVE_RL_PRE_INPUT_HOOK", VInt 1);
    ("HAVE_RL_RESIZE_TERMINAL", VInt 1);
    ("HAVE_ROUND", VInt 1);
    ("HAVE_RTPSPAWN", VInt 0);
    ("HAVE_SCHED_GET_PRIORITY_MAX", VInt 0);
    ("HAVE_SCHED_H", VInt 0);
    ("HAVE_SCHED_RR_GET_INTERVAL", VInt 0);
    ("HAVE_SCHED_SETAFFINITY", VInt 0);
    ("HAVE_SCHED_SETPARAM", VInt 0);
    ("HAVE_SCHED_SETSCHEDULER", VInt 0);
    ("HAVE_SEM_CLOCKWAIT", VInt 0);
    ("HAVE_SEM_GETVALUE", VInt 0);
    ("HAVE_SEM_OPEN", VInt 0);
    ("HAVE_SEM_TIMEDWAIT", VInt 0);
    ("HAVE_SEM_UNLINK", VInt 0);
    ("HAVE_SENDFILE", VInt 0);
    ("HAVE_SETEGID", VInt 0);
    ("HAVE_SETEUID", VInt 0);
    ("HAVE_SETGID", VInt 0);
    ("HAVE_SETGROUPS", VInt 0);
    ("HAVE_SETHOSTNAME", VInt 0);
    ("HAVE_SETITIMER", VInt 0);
    ("HAVE_SETLOCALE", VInt 1);
    ("HAVE_SETPGID", VInt 0);
    ("HAVE_SETPGRP", VInt 0);
    ("HAVE_SETPRIORITY", VInt 0);
    ("HAVE_SETREGID", VInt 0);
    ("HAVE_SETRESGID", VInt 0);
    ("HAVE_SETRESUID", VInt 0);
    ("HAVE_SETREUID", VInt 0);
    ("HAVE_SETSID", VInt 0);
    ("HAVE_SETUID", VInt 0);
    ("HAVE_SETVBUF", VInt 1);
    ("HAVE_SHADOW_H", VInt 0);
    ("HAVE_SHM_OPEN", VInt 0);
    ("HAVE_SHM_UNLINK", VInt 0);
    ("HAVE_SIGACTION", VInt 0);
    ("HAVE_SIGALTSTACK", VInt 0);
    ("HAVE_SIGFILLSET", VInt 0);
    ("HAVE_SIGINFO_T_SI_BAND", VInt 0);
    ("HAVE_SIGINTERRUPT", VInt 0);
    ("HAVE_SIGNAL_H", VInt 1);
    ("HAVE_SIGPENDING", VInt 0);
    ("HAVE_SIGRELSE", VInt 0);
    ("HAVE_SIGTIMEDWAIT", VInt 0);
    ("HAVE_SIGWAIT", VInt 0);
    ("HAVE_SIGWAITINFO", VInt 0);
    ("HAVE_SNPRINTF", VInt 1);
    ("HAVE_SOCKADDR_ALG", VInt 0);
    ("HAVE_SOCKADDR_SA_LEN", VInt 0);
    ("HAVE_SOCKADDR_STORAGE", VInt 1);
    ("HAVE_SOCKETPAIR", VInt 0);
    ("HAVE_SPAWN_H", VInt 0);
    ("HAVE_SSIZE_T", VInt 1);
    ("HAVE_STATVFS", VInt 0);
    ("HAVE_STAT_TV_NSEC", VInt 0);
    ("HAVE_STAT_TV_NSEC2", VInt 0);
    ("HAVE_STDARG_PROTOTYPES", VInt 1);
    ("HAVE_STDINT_H", VInt 1);
    ("HAVE_STDLIB_H", VInt 1);
    ("HAVE_STD_ATOMIC", VInt 1);
    ("HAVE_STRDUP", VInt 1);
    ("HAVE_STRFTIME", VInt 1);
    ("HAVE_STRINGS_H", VInt 1);
    ("HAVE_STRING_H", VInt 1);
    ("HAVE_STRLCPY", VInt 0);
    ("HAVE_STROPTS_H", VInt 0);
    ("HAVE_STRSIGNAL", VInt 0);
    ("HAVE_STRUCT_PASSWD_PW_GECOS", VInt 0);
    ("HAVE_STRUCT_PASSWD_PW_PASSWD", VInt 0);
    ("HAVE_STRUCT_STAT_ST_BIRTHTIME", VInt 0);
    ("HAVE_STRUCT_STAT_ST_BLKSIZE", VInt 0);
    ("HAVE_STRUCT_STAT_ST_BLOCKS", VInt 0);
    ("HAVE_STRUCT_STAT_ST_FLAGS", VInt 0);
    ("HAVE_STRUCT_STAT_ST_GEN", VInt 0);
    ("HAVE_STRUCT_STAT_ST_RDEV", VInt 1);
    ("HAVE_STRUCT_TM_TM_ZONE", VInt 0);
    ("HAVE_SYMLINK", VInt 0);
    ("HAVE_SYMLINKAT", VInt 0);
    ("HAVE_SYNC", VInt 0);
    ("HAVE_SYSCONF", VInt 0);
    ("HAVE_SYSEXITS_H", VInt 0);
    ("HAVE_SYS_AUDIOIO_H", VInt 0);
    ("HAVE_SYS_BSDTTY_H", VInt 0);
    ("HAVE_SYS_DEVPOLL_H", VInt 0);
    ("HAVE_SYS_DIR_H", VInt 0);
    ("HAVE_SYS_ENDIAN_H", VInt 0);
    ("HAVE_SYS_EPOLL_H", VInt 0);
    ("HAVE_SYS_EVENT_H", VInt 0);
    ("HAVE_SYS_FILE_H", VInt 1);
    ("HAVE_SYS_IOCTL_H", VInt 0);
    ("HAVE_SYS_KERN_CONTROL_H", VInt 0);
    ("HAVE_SYS_LOADAVG_H", VInt 0);
    ("HAVE_SYS_LOCK_H", VInt 0);
    ("HAVE_SYS_MEMFD_H", VInt 0);
    ("HAVE_SYS_MKDEV_H", VInt 0);
    ("HAVE_SYS_MMAN_H", VInt 0);
    ("HAVE_SYS_MODEM_H", VInt 0);
    ("HAVE_SYS_NDIR_H", VInt 0);
    ("HAVE_SYS_PARAM_H", VInt 1);
    ("HAVE_SYS_POLL_H", VInt 0);
    ("HAVE_SYS_RANDOM_H", VInt 0);
    ("HAVE_SYS_RESOURCE_H", VInt 0);
    ("HAVE_SYS_SELECT_H", VInt 0);
    ("HAVE_SYS_SENDFILE_H", VInt 0);
    ("HAVE_SYS_SOCKET_H", VInt 0);
    ("HAVE_SYS_STATVFS_H", VInt 0);
    ("HAVE_SYS_STAT_H", VInt 1);
    ("HAVE_SYS_SYSCALL_H", VInt 0);
    ("HAVE_SYS_SYSMACROS_H", VInt 0);
    ("HAVE_SYS_SYS_DOMAIN_H", VInt 0);
    ("HAVE_SYS_TERMIO_H", VInt 0);
    ("HAVE_SYS_TIMES_H", VInt 0);
    ("HAVE_SYS_TIME_H", VInt 1);
    ("HAVE_SYS_TYPES_H", VInt 1);
    ("HAVE_SYS_UIO_H", VInt 0);
    ("HAVE_SYS_UN_H", VInt 0);
    ("HAVE_SYS_UTSNAME_H", VInt 0);
    ("HAVE_SYS_WAIT_H", VInt 0);
    ("HAVE_SYS_XATTR_H", VInt 0);
    ("HAVE_TCGETPGRP", VInt 0);
    ("HAVE_TCSETPGRP", VInt 0);
    ("HAVE_TEMPNAM", VInt 1);
    ("HAVE_TERMIOS_H", VInt 0);
    ("HAVE_TERM_H", VInt 0);
    ("HAVE_TGAMMA", VInt 1);
    ("HAVE_THREAD_H", VInt 0);
    ("HAVE_TIMEGM", VInt 0);
    ("HAVE_TIMES", VInt 0);
    ("HAVE_TMPFILE", VInt 1);
    ("HAVE_TMPNAM", VInt 1);
    ("HAVE_TMPNAM_R", VInt 0);
    ("HAVE_TM_ZONE", VInt 0);
    ("HAVE_TRUNCATE", VInt 0);
    ("HAVE_TZNAME", VInt 1);
    ("HAVE_UCS4_TCL", VInt 0);
    ("HAVE_UNAME", VInt 0);
    ("HAVE_UNISTD_H", VInt 1);
    ("HAVE_UNLINKAT", VInt 0);
    ("HAVE_USABLE_WCHAR_T", VInt 1);
    ("HAVE_UTIL_H", VInt 0);
    ("HAVE_UTIMENSAT", VInt 0);
    ("HAVE_UTIMES", VInt 0);
    ("HAVE_UTIME_H", VInt 1);
    ("HAVE_UUID_CREATE", VInt 0);
    ("HAVE_UUID_ENC_BE", VInt 0);
    ("HAVE_UUID_GENERATE_TIME_SAFE", VInt 0);
    ("HAVE_UUID_H", VInt 0);
    ("HAVE_UUID_UUID_H", VInt 0);
    ("HAVE_WAIT3", VInt 0);
    ("HAVE_WAIT4", VInt 0);
    ("HAVE_WAITID", VInt 0);
    ("HAVE_WAITPID", VInt 0);
    ("HAVE_WCHAR_H", VInt 1);
    ("HAVE_WCSCOLL", VInt 1);
    ("HAVE_WCSFTIME", VInt 1);
    ("HAVE_WCSXFRM", VInt 1);
    ("HAVE_WMEMCMP", VInt 1);
    ("HAVE_WORKING_TZSET", VInt 0);
    ("HAVE_WRITEV", VInt 0);
    ("HAVE_WS2TCPIP_H", VInt 1);
    ("HAVE_X509_VERIFY_PARAM_SET1_HOST", VInt 0);
    ("HAVE_ZLIB_COPY", VInt 1);
    ("HAVE__GETPTY", VInt 0);
    ("HOST_GNU_TYPE", VStr "x86_64-w64-mingw32");
    ("INCLDIRSTOMAKE", VStr "C:/buildroot/x86_64-1320-win32-seh-ucrt-rt_v11-rev0/mingw64/opt/include C:/buildroot/x86_64-1320-win32-seh-ucrt-rt_v11-rev0/mingw64/opt/include C:/buildroot/x86_64-1320-win32-seh-ucrt-rt_v11-rev0/mingw64/opt/include/python3.9 C:/buildroot/x86_64-1320-win32-seh-ucrt-rt_v11-rev0/mingw64/opt/include/python3.9");
    ("INCLUDEDIR", VStr "C:/buildroot/x86_64-1320-win32-seh-ucrt-rt_v11-rev0/mingw64/opt/include");
    ("INCLUDEPY", VStr "C:/buildroot/x86_64-1320-win32-seh-ucrt-rt_v11-rev0/mingw64/opt/include/python3.9");
    ("INSTALL", VStr "/usr/bin/install -c");
    ("INSTALL_DATA", VStr "/usr/bin/install -c -m 644");
    ("INSTALL_PROGRAM", VStr "/usr/bin/install -c");
    ("INSTALL_SCRIPT", VStr "/usr/bin/install -c");
    ("INSTALL_SHARED", VStr "/usr/bin/install -c -m 755");
    ("INSTSONAME", VStr "libpython3.9.dll.a");
    ("IO_H", VStr "Modules/_io/_iomodule.h");
    ("IO_OBJS", VStr "\");
    ("LDCXXSHARED", VStr "x86_64-w64-mingw32-c++ -shared -Wl,--enable-auto-image-base");
    ("LDFLAGS", VStr "-pipe -fno-ident -L/c/buildroot/x86_64-1320-win32-seh-ucrt-rt_v11-rev0/mingw64/opt/lib -L/c/buildroot/prerequisites/x86_64-zlib-static/lib -L/c/buildroot/prerequisites/x86_64-w64-mingw32-static/lib -LC:/buildroot/prerequisites/x86_64-zlib-static/lib -LC:/buildroot/x86_64-1320-win32-seh-ucrt-rt_v11-rev0/mingw64/opt/lib");
    ("LDLIBRARY", VStr "libpython3.9.dll.a");
    ("LDLIBRARYDIR", VStr EmptyString);
    ("LDSHARED", VStr "x86_64-w64-mingw32-gcc -shared -Wl,--enable-auto-image-base -pipe -fno-ident -L/c/buildroot/x86_64-1320-win32-seh-ucrt-rt_v11-rev0/mingw64/opt/lib -L/c/buildroot/prerequisites/x86_64-zlib-static/lib -L/c/buildroot/prerequisites/x86_64-w64-mingw32-static/lib -LC:/buildroot/prerequisites/x86_64-zlib-static/lib -LC:/buildroot/x86_64-1320-win32-seh-ucrt-rt_v11-rev0/mingw64/opt/lib");
    ("LDVERSION", VStr "3.9");
    ("LIBC", VStr EmptyString);
    ("LIBDEST", VStr "C:/buildroot/x86_64-1320-win32-seh-ucrt-rt_v11-rev0/mingw64/opt/lib/python3.9");
    ("LIBDIR", VStr "C:/buildroot/x86_64-1320-win32-seh-ucrt-rt_v11-rev0/mingw64/opt/lib");
    ("LIBFFI_INCLUDEDIR", VStr EmptyString);
    ("LIBM", VStr "-lm");
    ("LIBOBJDIR", VStr "Python/");
    ("LIBOBJS", VStr EmptyString);
    ("LIBPC", VStr "C:/buildroot/x86_64-1320-win32-seh-ucrt-rt_v11-rev0/mingw64/opt/lib/pkgconfig");
    ("LIBPL", VStr "C:/buildroot/x86_64-1320-win32-seh-ucrt-rt_v11-rev0/mingw64/opt/lib/python3.9/config-3.9");
    ("LIBPYTHON", VStr "-lpython3.9");
    ("LIBRARY", VStr "libpython3.9.a");
    ("LIBRARY_OBJS", VStr "\");
    ("LIBRARY_OBJS_OMIT_FROZEN", VStr "\");
    ("LIBS", VStr "-lm -lversion -lshlwapi");
    ("LIBSUBDIRS", VStr "tkinter tkinter/test tkinter/test/test_tkinter \");
    ("LINKCC", VStr "x86_64-w64-mingw32-gcc");
    ("LINKFORSHARED", VStr "-Wl,--stack,2000000");
    ("LIPO_32BIT_FLAGS", VStr EmptyString);
    ("LIPO_INTEL64_FLAGS", VStr EmptyString);
    ("LLVM_PROF_ERR", VStr "no");
    ("LLVM_PROF_FILE", VStr EmptyString);
    ("LLVM_PROF_MERGER", VStr "true");
    ("LN", VStr "ln");
    ("LOCALMODLIBS", VStr "-lws2_32");
    ("MACHDEP", VStr "win32");
    ("MACHDEP_OBJS", VStr "PC/dl_nt.o");
    ("MACHDESTLIB", VStr "C:/buildroot/x86_64-1320-win32-seh-ucrt-rt_v11-rev0/mingw64/opt/lib/python3.9");
    ("MACOSX_DEPLOYMENT_TARGET", VStr EmptyString);
    ("MAINCC", VStr "x86_64-w64-mingw32-gcc");
    ("MAJOR_IN_MKDEV", VInt 0);
    ("MAJOR_IN_SYSMACROS", VInt 0);
    ("MAKESETUP", VStr "../../../src/Python-3.9.10/Modules/makesetup");
    ("MANDIR", VStr "C:/buildroot/x86_64-1320-win32-seh-ucrt-rt_v11-rev0/mingw64/opt/share/man");
    ("MKDIR_P", VStr "/usr/bin/mkdir -p");
    ("MODBUILT_NAMES", VStr "nt  winreg  msvcrt  _winapi  errno  _sre  _codecs  _weakref  _functools  _operator  _collections  _abc  itertools  atexit  _signal  _stat  time  _thread  _locale  _io  faulthandler  _tracemalloc  _peg_parser  _symtable  xxsubtype");
    ("MODDISABLED_NAMES", VStr EmptyString);
    ("MODLIBS", VStr "-lws2_32");
    ("MODOBJS", VStr "Modules/posixmodule.o  Modules/winreg.o  Modules/msvcrtmodule.o  Modules/_winapi.o  Modules/errnomodule.o  Modules/_sre.o  Modules/_codecsmodule.o  Modules/_weakref.o  Modules/_functoolsmodule.o  Modules/_operator.o  Modules/_collectionsmodule.o  Modules/_abc.o  Modules/itertoolsmodule.o  Modules/atexitmodule.o  Modules/signalmodule.o  Modules/_stat.o  Modules/timemodule.o  Modules/_threadmodule.o  Modules/_localemodule.o  Modules/_iomodule.o Modules/iobase.o Modules/fileio.o Modules/bytesio.o Modules/bufferedio.o Modules/textio.o Modules/stringio.o Modules/winconsoleio.o  Modules/faulthandler.o  Modules/_tracemalloc.o  Modules/_peg_parser.o  Modules/symtablemodule.o  Modules/xxsubtype.o");
    ("MODULE_OBJS", VStr "\");
    ("MULTIARCH", VStr EmptyString);
    ("MULTIARCH_CPPFLAGS", VStr EmptyString);
    ("MVWDELCH_IS_EXPRESSION", VInt 0);
    ("NCURSESW_INCLUDEDIR", VStr EmptyString);
    ("NO_AS_NEEDED", VStr "-Wl,--no-as-needed");
    ("NT_THREADS", VInt 1);
    ("OBJECT_OBJS", VStr "\");
    ("OPENSSL_INCLUDES", VStr EmptyString);
    ("OPENSSL_LDFLAGS", VStr EmptyString);
    ("OPENSSL_LIBS", VStr EmptyString);
    ("OPT", VStr "-DNDEBUG -g -fwrapv -O3 -Wall");
    ("OTHER_LIBTOOL_OPT", VStr EmptyString);
    ("PACKAGE_BUGREPORT", VInt 0);
    ("PACKAGE_NAME", VInt 0);
    ("PACKAGE_STRING", VInt 0);
    ("PACKAGE_TARNAME", VInt 0);
    ("PACKAGE_URL", VInt 0);
    ("PACKAGE_VERSION", VInt 0);
    ("PARSER_HEADERS", VStr "\");
    ("PARSER_OBJS", VStr "\ \ Parser/myreadline.o Parser/parsetok.o Parser/tokenizer.o");
    ("PEGEN_HEADERS", VStr "\");
    ("PEGEN_OBJS", VStr "\");
    ("PGO_PROF_GEN_FLAG", VStr "-fprofile-generate");
    ("PGO_PROF_USE_FLAG", VStr "-fprofile-use -fprofile-correction");
    ("PLATLIBDIR", VStr "lib");
    ("POBJS", VStr "\");
    ("POSIX_SEMAPHORES_NOT_ENABLED", VInt 1);
    ("PROFILE_TASK", VStr "-m test --pgo");
    ("PTHREAD_KEY_T_IS_COMPATIBLE_WITH_INT", VInt 0);
    ("PTHREAD_SYSTEM_SCHED_SUPPORTED", VInt 0);
    ("PURIFY", VStr EmptyString);
    ("PY3LIBRARY", VStr EmptyString);
    ("PYD_PLATFORM_TAG", VStr "mingw_x86_64_ucrt");
    ("PYLONG_BITS_IN_DIGIT", VInt 0);
    ("PYTHON", VStr "python.exe");
    ("PYTHONFRAMEWORK", VStr EmptyString);
    ("PYTHONFRAMEWORKDIR", VStr "no-framework");
    ("PYTHONFRAMEWORKINSTALLDIR", VStr EmptyString);
    ("PYTHONFRAMEWORKPREFIX", VStr EmptyString);
    ("PYTHONPATH", VStr EmptyString);
    ("PYTHON_FOR_BUILD", VStr "./python.exe -E");
    ("PYTHON_HEADERS", VStr "\");
    ("PYTHON_OBJS", VStr "\");
    ("PY_BUILTIN_HASHLIB_HASHES", VStr (dquote +:+ "md5,sha1,sha256,sha512,sha3,blake2" +:+ dquote));
    ("PY_BUILTIN_MODULE_CFLAGS", VStr ("-Wno-unused-result -Wsign-compare -DNDEBUG -g -fwrapv -O3 -Wall -O2 -pipe -fno-ident -I/c/buildroot/x86_64-1320-win32-seh-ucrt-rt_v11-rev0/mingw64/opt/include -I/c/buildroot/prerequisites/x86_64-zlib-static/include -I/c/buildroot/prerequisites/x86_64-w64-mingw32-static/include -D__USE_MINGW_ANSI_STDIO=1 -std=c99 -Wextra -Wno-unused-result -Wno-unused-parameter -Wno-missing-field-initializers -Wstrict-prototypes -Werror=implicit-function-declaration -fvisibility=hidden -D_WIN32_WINNT=0x0601 -DMS_DLL_ID='" +:+ dquote +:+ "3.9" +:+ dquote +:+ "' -fprofile-use -fprofile-correction -I../../../src/Python-3.9.10/Include/internal -IObjects -IInclude -IPython -I. -I../../../src/Python-3.9.10/Include -I../../../src/Python-3.9.10/PC  -I/c/buildroot/x86_64-1320-win32-seh-ucrt-rt_v11-rev0/mingw64/opt/include -I/c/buildroot/prerequisites/x86_64-zlib-static/include -I/c/buildroot/prerequisites/x86_64-w64-mingw32-static/include -IC:/buildroot/x86_64-1320-win32-seh-ucrt-rt_v11-rev0/mingw64/opt/include -IC:/buildroot/x86_64-1320-win32-seh-ucrt-rt_v11-rev0/mingw64/opt/include/ncursesw -IC:/buildroot/prerequisites/x86_64-zlib-static/include -I. -DPy_BUILD_CORE_BUILTIN"));
    ("PY_CFLAGS", VStr "-Wno-unused-result -Wsign-compare -DNDEBUG -g -fwrapv -O3 -Wall -O2 -pipe -fno-ident -I/c/buildroot/x86_64-1320-win32-seh-ucrt-rt_v11-rev0/mingw64/opt/include -I/c/buildroot/prerequisites/x86_64-zlib-static/include -I/c/buildroot/prerequisites/x86_64-w64-mingw32-static/include -D__USE_MINGW_ANSI_STDIO=1");
    ("PY_CFLAGS_NODIST", VStr ("-std=c99 -Wextra -Wno-unused-result -Wno-unused-parameter -Wno-missing-field-initializers -Wstrict-prototypes -Werror=implicit-function-declaration -fvisibility=hidden -D_WIN32_WINNT=0x0601 -DMS_DLL_ID='" +:+ dquote +:+ "3.9" +:+ dquote +:+ "' -fprofile-use -fprofile-correction -I../../../src/Python-3.9.10/Include/internal"));
    ("PY_COERCE_C_LOCALE", VInt 0);
    ("PY_CORE_CFLAGS", VStr ("-Wno-unused-result -Wsign-compare -DNDEBUG -g -fwrapv -O3 -Wall -O2 -pipe -fno-ident -I/c/buildroot/x86_64-1320-win32-seh-ucrt-rt_v11-rev0/mingw64/opt/include -I/c/buildroot/prerequisites/x86_64-zlib-static/include -I/c/buildroot/prerequisites/x86_64-w64-mingw32-static/include -D__USE_MINGW_ANSI_STDIO=1 -std=c99 -Wextra -Wno-unused-result -Wno-unused-parameter -Wno-missing-field-initializers -Wstrict-prototypes -Werror=implicit-function-declaration -fvisibility=hidden -D_WIN32_WINNT=0x0601 -DMS_DLL_ID='" +:+ dquote +:+ "3.9" +:+ dquote +:+ "' -fprofile-use -fprofile-correction -I../../../src/Python-3.9.10/Include/internal -IObjects -IInclude -IPython -I. -I../../../src/Python-3.9.10/Include -I../../../src/Python-3.9.10/PC  -I/c/buildroot/x86_64-1320-win32-seh-ucrt-rt_v11-rev0/mingw64/opt/include -I/c/buildroot/prerequisites/x86_64-zlib-static/include -I/c/buildroot/prerequisites/x86_64-w64-mingw32-static/include -IC:/buildroot/x86_64-1320-win32-seh-ucrt-rt_v11-rev0/mingw64/opt/include -IC:/buildroot/x86_64-1320-win32-seh-ucrt-rt_v11-rev0/mingw64/opt/include/ncursesw -IC:/buildroot/prerequisites/x86_64-zlib-static/include -I. -DPy_BUILD_CORE"));
    ("PY_CORE_LDFLAGS", VStr "-pipe -fno-ident -L/c/buildroot/x86_64-1320-win32-seh-ucrt-rt_v11-rev0/mingw64/opt/lib -L/c/buildroot/prerequisites/x86_64-zlib-static/lib -L/c/buildroot/prerequisites/x86_64-w64-mingw32-static/lib -LC:/buildroot/prerequisites/x86_64-zlib-static/lib -LC:/buildroot/x86_64-1320-win32-seh-ucrt-rt_v11-rev0/mingw64/opt/lib");
    ("PY_CPPFLAGS", VStr "-IObjects -IInclude -IPython -I. -I../../../src/Python-3.9.10/Include -I../../../src/Python-3.9.10/PC  -I/c/buildroot/x86_64-1320-win32-seh-ucrt-rt_v11-rev0/mingw64/opt/include -I/c/buildroot/prerequisites/x86_64-zlib-static/include -I/c/buildroot/prerequisites/x86_64-w64-mingw32-static/include -IC:/buildroot/x86_64-1320-win32-seh-ucrt-rt_v11-rev0/mingw64/opt/include -IC:/buildroot/x86_64-1320-win32-seh-ucrt-rt_v11-rev0/mingw64/opt/include/ncursesw -IC:/buildroot/prerequisites/x86_64-zlib-static/include -I.");
    ("PY_FORMAT_SIZE_T", VStr (dquote +:+ "z" +:+ dquote));
    ("PY_LDFLAGS", VStr "-pipe -fno-ident -L/c/buildroot/x86_64-1320-win32-seh-ucrt-rt_v11-rev0/mingw64/opt/lib -L/c/buildroot/prerequisites/x86_64-zlib-static/lib -L/c/buildroot/prerequisites/x86_64-w64-mingw32-static/lib -LC:/buildroot/prerequisites/x86_64-zlib-static/lib -LC:/buildroot/x86_64-1320-win32-seh-ucrt-rt_v11-rev0/mingw64/opt/lib");
    ("PY_LDFLAGS_NODIST", VStr EmptyString);
    ("PY_SSL_DEFAULT_CIPHERS", VInt 1);
    ("PY_SSL_DEFAULT_CIPHER_STRING", VInt 0);
    ("PY_STDMODULE_CFLAGS", VStr ("-Wno-unused-result -Wsign-compare -DNDEBUG -g -fwrapv -O3 -Wall -O2 -pipe -fno-ident -I/c/buildroot/x86_64-1320-win32-seh-ucrt-rt_v11-rev0/mingw64/opt/include -I/c/buildroot/prerequisites/x86_64-zlib-static/include -I/c/buildroot/prerequisites/x86_64-w64-mingw32-static/include -D__USE_MINGW_ANSI_STDIO=1 -std=c99 -Wextra -Wno-unused-result -Wno-unused-parameter -Wno-missing-field-initializers -Wstrict-prototypes -Werror=implicit-function-declaration -fvisibility=hidden -D_WIN32_WINNT=0x0601 -DMS_DLL_ID='" +:+ dquote +:+ "3.9" +:+ dquote +:+ "' -fprofile-use -fprofile-correction -I../../../src/Python-3.9.10/Include/internal -IObjects -IInclude -IPython -I. -I../../../src/Python-3.9.10/Include -I../../../src/Python-3.9.10/PC  -I/c/buildroot/x86_64-1320-win32-seh-ucrt-rt_v11-rev0/mingw64/opt/include -I/c/buildroot/prerequisites/x86_64-zlib-static/include -I/c/buildroot/prerequisites/x86_64-w64-mingw32-static/include -IC:/buildroot/x86_64-1320-win32-seh-ucrt-rt_v11-rev0/mingw64/opt/include -IC:/buildroot/x86_64-1320-win32-seh-ucrt-rt_v11-rev0/mingw64/opt/include/ncursesw -IC:/buildroot/prerequisites/x86_64-zlib-static/include -I."));
    ("Py_DEBUG", VInt 0);
    ("Py_ENABLE_SHARED", VInt 1);
    ("Py_HASH_ALGORITHM", VInt 0);
    ("Py_TRACE_REFS", VInt 0);
    ("QUICKTESTOPTS", VStr "-x test_subprocess test_io test_lib2to3 \");
    ("RCFLAGS", VStr "-DFIELD3=10150 -O COFF --target=pe-x86-64");
    ("READELF", VStr "readelf");
    ("RESSRCDIR", VStr "Mac/Resources/framework");
    ("RETSIGTYPE", VStr "void");
    ("RUNSHARED", VStr EmptyString);
    ("SCRIPTDIR", VStr "C:/buildroot/x86_64-1320-win32-seh-ucrt-rt_v11-rev0/mingw64/opt/lib");
    ("SETPGRP_HAVE_ARG", VInt 0);
    ("SHELL", VStr "/bin/sh");
    ("SHLIBS", VStr "-lm -lversion -lshlwapi");
    ("SHLIB_SUFFIX", VStr ".pyd");
    ("SHM_NEEDS_LIBRT", VInt 0);
    ("SIGNED_RIGHT_SHIFT_ZERO_FILLS", VInt 0);
    ("SITEPATH", VStr EmptyString);
    ("SIZEOF_DOUBLE", VInt 8);
    ("SIZEOF_FLOAT", VInt 4);
    ("SIZEOF_FPOS_T", VInt 8);
    ("SIZEOF_INT", VInt 4);
    ("SIZEOF_LONG", VInt 4);
    ("SIZEOF_LONG_DOUBLE", VInt 16);
    ("SIZEOF_LONG_LONG", VInt 8);
    ("SIZEOF_OFF_T", VInt 8);
    ("SIZEOF_PID_T", VInt 8);
    ("SIZEOF_PTHREAD_KEY_T", VInt 0);
    ("SIZEOF_PTHREAD_T", VInt 0);
    ("SIZEOF_SHORT", VInt 2);
    ("SIZEOF_SIZE_T", VInt 8);
    ("SIZEOF_TIME_T", VInt 8);
    ("SIZEOF_UINTPTR_T", VInt 8);
    ("SIZEOF_VOID_P", VInt 8);
    ("SIZEOF_WCHAR_T", VInt 2);
    ("SIZEOF__BOOL", VInt 1);
    ("SOABI", VStr "cpython-39");
    ("SRCDIRS", VStr "Parser Parser/pegen Objects Python Modules Modules/_io Programs PC");
    ("SRC_GDB_HOOKS", VStr "../../../src/Python-3.9.10/Tools/gdb/libpython.py");
    ("STDC_HEADERS", VInt 1);
    ("STRICT_SYSV_CURSES", VStr "/* Don't use ncurses extensions */");
    ("STRIPFLAG", VStr "-s");
    ("SUBDIRS", VStr EmptyString);
    ("SUBDIRSTOO", VStr "Include Lib Misc");
    ("SYSLIBS", VStr "-lm");
    ("SYS_SELECT_WITH_SYS_TIME", VInt 0);
    ("TCLTK_INCLUDES", VStr EmptyString);
    ("TCLTK_LIBS", VStr EmptyString);
    ("TESTOPTS", VStr EmptyString);
    ("TESTPATH", VStr EmptyString);
    ("TESTPYTHON", VStr "./python.exe");
    ("TESTPYTHONOPTS", VStr EmptyString);
    ("TESTRUNNER", VStr "./python.exe ../../../src/Python-3.9.10/Tools/scripts/run_tests.py");
    ("TESTTIMEOUT", VInt 1200);
    ("TIMEMODULE_LIB", VInt 0);
    ("TIME_WITH_SYS_TIME", VInt 1);
    ("TM_IN_SYS_TIME", VInt 0);
    ("TZPATH", VStr "/usr/share/zoneinfo:/usr/lib/zoneinfo:/usr/share/lib/zoneinfo:/etc/zoneinfo");
    ("UNICODE_DEPS", VStr "\");
    ("UNIVERSALSDK", VStr EmptyString);
    ("UPDATE_FILE", VStr "python3 ../../../src/Python-3.9.10/Tools/scripts/update_file.py");
    ("USE_COMPUTED_GOTOS", VInt 0);
    ("VENVLAUNCHERDIR", VStr "C:/buildroot/x86_64-1320-win32-seh-ucrt-rt_v11-rev0/mingw64/opt/lib/python3.9/venv/scripts/nt");
    ("VERSION", VStr "3.9");
    ("VPATH", VStr "C:/buildroot/src/Python-3.9.10");
    ("VPATH_b2h", VStr "C:/buildroot/src/Python-3.9.10");
    ("WINDOW_HAS_FLAGS", VInt 0);
    ("WINDRES", VStr "windres");
    ("WITH_DECIMAL_CONTEXTVAR", VInt 1);
    ("WITH_DOC_STRINGS", VInt 1);
    ("WITH_DTRACE", VInt 0);
    ("WITH_DYLD", VInt 0);
    ("WITH_LIBINTL", VInt 0);
    ("WITH_NEXT_FRAMEWORK", VInt 0);
    ("WITH_PYMALLOC", VInt 1);
    ("WITH_VALGRIND", VInt 0);
    ("X87_DOUBLE_ROUNDING", VInt 0);
    ("XMLLIBSUBDIRS", VStr "xml xml/dom xml/etree xml/parsers xml/sax");
    ("abs_builddir", VStr "C:/buildroot/x86_64-1320-win32-seh-ucrt-rt_v11-rev0/build/Python-3.9.10");
    ("abs_builddir_b2h", VStr "C:/buildroot/x86_64-1320-win32-seh-ucrt-rt_v11-rev0/build/Python-3.9.10");
    ("abs_srcdir", VStr "C:/buildroot/src/Python-3.9.10");
    ("abs_srcdir_b2h", VStr "C:/buildroot/src/Python-3.9.10");
    ("datarootdir", VStr "C:/buildroot/x86_64-1320-win32-seh-ucrt-rt_v11-rev0/mingw64/opt/share");
    ("exec_prefix", VStr "C:/buildroot/x86_64-1320-win32-seh-ucrt-rt_v11-rev0/mingw64/opt");
    ("prefix", VStr "C:/buildroot/x86_64-1320-win32-seh-ucrt-rt_v11-rev0/mingw64/opt");
    ("prefix_b2h", VStr "C:/buildroot/x86_64-1320-win32-seh-ucrt-rt_v11-rev0/mingw64/opt");
    ("srcdir", VStr "C:/buildroot/src/Python-3.9.10");
    ("srcdir_b2h", VStr "C:/buildroot/src/Python-3.9.10")
  ].

Definition build_time_vars : gmap string value :=
  dict_display build_time_vars_items.

Definition keys_to_replace : list string :=
  [ "BINDIR"; "BINLIBDEST"; "CONFINCLUDEDIR";
    "CONFINCLUDEPY"; "DESTDIRS"; "DESTLIB"; "DESTSHARED";
    "INCLDIRSTOMAKE"; "INCLUDEDIR"; "INCLUDEPY";
    "LIBDEST"; "LIBDIR"; "LIBPC"; "LIBPL"; "MACHDESTLIB";
    "MANDIR"; "SCRIPTDIR"; "datarootdir"; "exec_prefix";
    "TZPATH" ].

(** The state of the module when its body stops: either the body ran to
    its end, or an exception left it with the table as it was then. *)
Inductive outcome : Type :=
| Done (m : gmap string value)
| Raised (e : exn) (m : gmap string value).

(** [m[key]] *)
Definition getitem (m : gmap string value) (key : string) : exn + value :=
  match m !! key with
  | Some v => inr v
  | None => inl (KeyError key)
  end.

(** [prefix = build_time_vars['BINDIR'][:-4]] *)
Definition prefix (m : gmap string value) : exn + string :=
  match getitem m "BINDIR" with
  | inl e => inl e
  | inr (VInt _) => inl TypeError
  | inr (VStr s) => inr (Str.slice_to_neg 4 s)
  end.

(** The body of the loop:
[[
    value = build_time_vars[key]
    build_time_vars[key] = value.replace(prefix, sys.prefix)
]] *)
Definition loop_body (old_prefix sys_prefix key : string)
    (m : gmap string value) : outcome :=
  match getitem m key with
  | inl e => Raised e m
  | inr (VInt _) => Raised AttributeError m
  | inr (VStr value) => Done (<[key := VStr (Str.replace old_prefix sys_prefix value)]> m)
  end.

(** [for key in keys: ...] *)
Fixpoint for_keys (old_prefix sys_prefix : string) (keys : list string)
    (m : gmap string value) : outcome :=
  match keys with
  | [] => Done m
  | key :: keys' =>
      match loop_body old_prefix sys_prefix key m with
      | Done m' => for_keys old_prefix sys_prefix keys' m'
      | Raised e m' => Raised e m'
      end
  end.

(** The normalization pass: the loop over [keys_to_replace]. *)
Definition normalize (old_prefix sys_prefix : string)
    (m : gmap string value) : outcome :=
  for_keys old_prefix sys_prefix keys_to_replace m.

(** The statements of the module that follow the table, run on a table [m]
    with [sys.prefix] equal to [sys_prefix]. *)
Definition load_and_normalize (sys_prefix : string)
    (m : gmap string value) : outcome :=
  match prefix m with
  | inl e => Raised e m
  | inr old_prefix => normalize old_prefix sys_prefix m
  end.

(** The table with which the module body stops. *)
Definition final (o : outcome) : gmap string value :=
  match o with
  | Done m => m
  | Raised _ m => m
  end.

(** Every key of [keys] is in [m] and holds a [str]. *)
Definition all_str (keys : list string) (m : gmap string value) : bool :=
  forallb (fun k => match m !! k with Some (VStr _) => true | _ => false end) keys.

(** ** Tables for the scenarios of the specification *)

(** An installation under [/opt/app]. *)
Definition scenario : gmap string value :=
  dict_display
    [ ("BINDIR", VStr "/opt/app/bin");
      ("BINLIBDEST", VStr "/opt/app/lib/app3.9");
      ("CC", VStr "gcc -I/opt/app/include");
      ("CONFINCLUDEDIR", VStr "/opt/app/include");
      ("CONFINCLUDEPY", VStr "-I/opt/app/include");
      ("DESTDIRS", VStr "/opt/app /opt/app/lib");
      ("DESTLIB", VStr "/opt/app/lib/app3.9");
      ("DESTSHARED", VStr "/opt/app/lib/app3.9/lib-dynload");
      ("INCLDIRSTOMAKE", VStr "/opt/app/include -I/opt/app/include2");
      ("INCLUDEDIR", VStr "/opt/app/include");
      ("INCLUDEPY", VStr "/opt/app/include/app3.9");
      ("LIBDEST", VStr "/opt/app/lib/app3.9");
      ("LIBDIR", VStr "/opt/app/lib");
      ("LIBPC", VStr "/opt/app/lib/pkgconfig");
      ("LIBPL", VStr "/OPT/APP/lib/config");
      ("MACHDESTLIB", VStr "/opt/app/app/lib");
      ("MANDIR", VStr "/opt/app/share/man");
      ("SCRIPTDIR", VStr "/opt/app/lib");
      ("SIZEOF_INT", VInt 4);
      ("TZPATH", VStr "/usr/share/zoneinfo");
      ("datarootdir", VStr "/opt/app/share");
      ("exec_prefix", VStr "/opt/app");
      ("prefix", VStr "/opt/app") ].

(** The same installation without its ['BINDIR'] entry. *)
Definition scenario_no_bindir : gmap string value :=
  delete "BINDIR" scenario.

(** The exception with which the module body stops, if any. *)
Definition raised (o : outcome) : option exn :=
  match o with
  | Done _ => None
  | Raised e _ => Some e
  end.

(** The normalization pass run a second time on the table that the first
    run delivers. *)
Definition normalize_twice (old_prefix sys_prefix : string)
    (m : gmap string value) : outcome :=
  match normalize old_prefix sys_prefix m with
  | Done m' => normalize old_prefix sys_prefix m'
  | Raised e m' => Raised e m'
  end.

(** The value is a [str]. *)
Definition is_str (o : option value) : bool :=
  match o with
  | Some (VStr _) => true
  | _ => false
  end.

(** The installation under [/opt/app] without its ['LIBDIR'] entry, with
    an [int] under ['LIBDIR'], with an [int] under ['BINDIR'], and with a
    ['BINDIR'] entry of three characters. *)
Definition scenario_no_libdir : gmap string value :=
  delete "LIBDIR" scenario.


Definition scenario_int_bindir : gmap string value :=
  <["BINDIR" := VInt 7]> scenario.

Definition scenario_short_bindir : gmap string value :=
  <["BINDIR" := VStr "bin"]> scenario.

(** No listed key of [m] holds a string in which [p] occurs. *)
Definition listed_free (p : string) (m : gmap string value) : bool :=
  forallb
    (fun k => match m !! k with
              | Some (VStr s) => negb (Str.contains p s)
              | _ => true
              end)
    keys_to_replace.

(** ** Facts about strings *)

Section StrFacts.
Implicit Types (s t u p old new : string) (c : ascii).

Lemma app_nil_l s : EmptyString +:+ s = s.
Proof. reflexivity. Qed.

Lemma app_cons c s t : String c s +:+ t = String c (s +:+ t).
Proof. reflexivity. Qed.

Lemma app_nil_r s : s +:+ EmptyString = s.
Proof. induction s as [|c s IH]; [reflexivity|]. rewrite app_cons, IH. reflexivity. Qed.

Lemma app_assoc s t u : (s +:+ t) +:+ u = s +:+ (t +:+ u).
Proof.
  induction s as [|c s IH]; [reflexivity|].
  rewrite !app_cons, IH. reflexivity.
Qed.

Lemma len_app s t : Str.len (s +:+ t) = Str.len s + Str.len t.
Proof.
  induction s as [|c s IH]; [reflexivity|].
  rewrite app_cons. unfold Str.len in *. simpl. rewrite IH. reflexivity.
Qed.

Lemma len_zero s : Str.len s = 0 -> s = EmptyString.
Proof. destruct s; [reflexivity|discriminate]. Qed.

(** Two ways of cutting one string differ by a middle piece. *)
Lemma app_eq_app s t u p :
  s +:+ t = u +:+ p ->
  (exists l, u = s +:+ l /\ t = l +:+ p) \/ (exists l, s = u +:+ l /\ p = l +:+ t).
Proof.
  revert u. induction s as [|c s IH]; intros u H.
  - left. exists u. split; [reflexivity|exact H].
  - destruct u as [|d u].
    + right. exists (String c s). split; [reflexivity|]. symmetry. exact H.
    + rewrite !app_cons in H. injection H as -> H.
      destruct (IH _ H) as [[l [-> ->]]|[l [-> ->]]]; [left|right];
        exists l; split; reflexivity.
Qed.

Lemma startswith_spec p s : Str.startswith p s = true <-> exists t, s = p +:+ t.
Proof.
  revert s. induction p as [|a p IH]; intros s; simpl.
  - split; [intros _; exists s; reflexivity|reflexivity].
  - destruct s as [|b s].
    + split; [discriminate|]. intros [t H]. discriminate H.
    + destruct (Ascii.eqb_spec a b) as [->|Hne].
      * rewrite IH. split; intros [t H]; exists t.
        -- rewrite app_cons, H. reflexivity.
        -- rewrite app_cons in H. injection H as H. exact H.
      * split; [discriminate|]. intros [t H].
        rewrite app_cons in H. injection H as H _. congruence.
Qed.

Lemma startswith_app p t : Str.startswith p (p +:+ t) = true.
Proof. apply startswith_spec. exists t. reflexivity. Qed.

Lemma occurs_here old t : Str.occurs old (old +:+ t).
Proof. exists EmptyString, t. reflexivity. Qed.

Lemma occurs_cons old c s : Str.occurs old s -> Str.occurs old (String c s).
Proof. intros (a & b & ->). exists (String c a), b. reflexivity. Qed.

Lemma occurs_app_l old s t : Str.occurs old s -> Str.occurs old (s +:+ t).
Proof.
  intros (a & b & ->). exists a, (b +:+ t). rewrite !app_assoc. reflexivity.
Qed.

Lemma occurs_app_r old s t : Str.occurs old t -> Str.occurs old (s +:+ t).
Proof.
  intros (a & b & ->). exists (s +:+ a), b. rewrite !app_assoc. reflexivity.
Qed.

Lemma occurs_inv old c s :
  Str.occurs old (String c s) ->
  Str.startswith old (String c s) = true \/ Str.occurs old s.
Proof.
  intros ([|d a] & b & H).
  - left. apply startswith_spec. exists b. exact H.
  - right. rewrite app_cons in H. injection H as _ ->. exists a, b. reflexivity.
Qed.

Lemma contains_spec old s : Str.contains old s = true <-> Str.occurs old s.
Proof.
  induction s as [|c s IH]; simpl.
  - destruct (Str.startswith old EmptyString) eqn:E.
    + split; [|reflexivity]. intros _.
      apply startswith_spec in E as [t ->]. apply occurs_here.
    + split; [discriminate|]. intros ([|d a] & b & H).
      * assert (Str.startswith old EmptyString = true) as E'
          by (apply startswith_spec; exists b; exact H).
        congruence.
      * discriminate H.
  - destruct (Str.startswith old (String c s)) eqn:E.
    + split; [|reflexivity]. intros _.
      apply startswith_spec in E as [t ->]. apply occurs_here.
    + rewrite IH. split; [apply occurs_cons|].
      intros [E'|H]%occurs_inv; [congruence|exact H].
Qed.

Lemma contains_false old s : Str.contains old s = false <-> ~ Str.occurs old s.
Proof. rewrite <- contains_spec. destruct (Str.contains old s); intuition congruence. Qed.

Lemma occurs_empty s : Str.occurs EmptyString s.
Proof. exists EmptyString, s. reflexivity. Qed.

Lemma border_spec s t :
  Str.border s t = true <->
  exists w l r, w <> EmptyString /\ s = l +:+ w /\ t = w +:+ r.
Proof.
  induction s as [|c s IH].
  - split; [discriminate|]. intros (w & l & r & Hw & H & _).
    destruct l; [rewrite app_nil_l in H; congruence|discriminate H].
  - change (Str.border (String c s) t)
      with (if Str.startswith (String c s) t then true else Str.border s t).
    destruct (Str.startswith (String c s) t) eqn:E.
    + split; [|reflexivity]. intros _.
      apply startswith_spec in E as [r ->].
      exists (String c s), EmptyString, r. repeat split. discriminate.
    + rewrite IH. split.
      * intros (w & l & r & Hw & -> & ->).
        exists w, (String c l), r. repeat split. exact Hw.
      * intros (w & [|d l] & r & Hw & H & ->).
        -- rewrite app_nil_l in H. subst w. rewrite startswith_app in E. discriminate.
        -- rewrite app_cons in H. injection H as _ ->.
           exists w, l, r. repeat split. exact Hw.
Qed.

Lemma drop_app p t : Str.drop (Str.len p) (p +:+ t) = t.
Proof. induction p as [|c p IH]; [reflexivity|]. rewrite app_cons. exact IH. Qed.

Lemma take_app p t : Str.take (Str.len p) (p +:+ t) = p.
Proof.
  induction p as [|c p IH]; [reflexivity|].
  rewrite app_cons. unfold Str.len in *. simpl. rewrite IH. reflexivity.
Qed.

Lemma take_drop n s : Str.take n s +:+ Str.drop n s = s.
Proof.
  revert s. induction n as [|n IH]; intros [|c s]; try reflexivity.
  simpl. rewrite app_cons, IH. reflexivity.
Qed.

End StrFacts.

(** ** Facts about [str.replace] *)

Section ReplaceFacts.
Implicit Types (s t u old new : string) (c : ascii).

(** Passing over [k] characters is dropping them. *)
Lemma replace_scan_skip old new k s :
  Str.replace_scan old new k s = Str.replace_scan old new 0 (Str.drop k s).
Proof.
  revert k. induction s as [|c s IH]; intros [|k]; try reflexivity.
  simpl. apply IH.
Qed.

(** The three equations of the scan. *)
Lemma replace_nil old new :
  old <> EmptyString -> Str.replace old new EmptyString = EmptyString.
Proof. destruct old; [congruence|reflexivity]. Qed.

Lemma replace_match old new s :
  old <> EmptyString ->
  Str.startswith old s = true ->
  Str.replace old new s = new +:+ Str.replace old new (Str.drop (Str.len old) s).
Proof.
  intros Hold Hs. destruct old as [|a o]; [congruence|].
  destruct s as [|c s]; [discriminate Hs|].
  unfold Str.replace.
  change (Str.replace_scan (String a o) new 0 (String c s))
    with (if Str.startswith (String a o) (String c s)
          then new +:+ Str.replace_scan (String a o) new (Str.len (String a o) - 1) s
          else String c (Str.replace_scan (String a o) new 0 s)).
  rewrite Hs, replace_scan_skip.
  change (Str.len (String a o) - 1) with (Str.len o - 0).
  rewrite Nat.sub_0_r. reflexivity.
Qed.

Lemma replace_step old new c s :
  Str.startswith old (String c s) = false ->
  Str.replace old new (String c s) = String c (Str.replace old new s).
Proof.
  intros Hs. destruct old as [|a o]; [discriminate Hs|].
  unfold Str.replace.
  change (Str.replace_scan (String a o) new 0 (String c s))
    with (if Str.startswith (String a o) (String c s)
          then new +:+ Str.replace_scan (String a o) new (Str.len (String a o) - 1) s
          else String c (Str.replace_scan (String a o) new 0 s)).
  rewrite Hs. reflexivity.
Qed.

Lemma replace_app_old old new t :
  old <> EmptyString ->
  Str.replace old new (old +:+ t) = new +:+ Str.replace old new t.
Proof.
  intros Hold. rewrite replace_match by (exact Hold || apply startswith_app).
  rewrite drop_app. reflexivity.
Qed.

Lemma replace_self old new :
  old <> EmptyString -> Str.replace old new old = new.
Proof.
  intros Hold. rewrite <- (app_nil_r old) at 2.
  rewrite replace_app_old, replace_nil, app_nil_r by exact Hold. reflexivity.
Qed.

(** A value without an occurrence of [old] is returned as it is. *)
Lemma replace_no_occ old new s :
  ~ Str.occurs old s -> Str.replace old new s = s.
Proof.
  induction s as [|c s IH]; intros Hno.
  - apply replace_nil. intros ->. apply Hno, occurs_empty.
  - rewrite replace_step.
    + rewrite IH; [reflexivity|]. intros H. apply Hno, occurs_cons, H.
    + destruct (Str.startswith old (String c s)) eqn:E; [|reflexivity].
      exfalso. apply Hno. apply startswith_spec in E as [t ->]. apply occurs_here.
Qed.

Lemma first_at_tail old c u s :
  Str.first_at old (Str.len (String c u)) (String c s) ->
  Str.first_at old (Str.len u) s.
Proof.
  intros H a b ->. specialize (H (String c a) b eq_refl).
  unfold Str.len in *. simpl in H. lia.
Qed.

Lemma first_at_nomatch old c u s :
  Str.first_at old (Str.len (String c u)) (String c s) ->
  Str.startswith old (String c s) = false.
Proof.
  intros H. destruct (Str.startswith old (String c s)) eqn:E; [|reflexivity].
  apply startswith_spec in E as [t E].
  specialize (H EmptyString t E). unfold Str.len in H. simpl in H. lia.
Qed.

(** The leftmost occurrence is the one that is replaced first. *)
Lemma replace_first old new u t :
  old <> EmptyString ->
  Str.first_at old (Str.len u) (u +:+ old +:+ t) ->
  Str.replace old new (u +:+ old +:+ t) = u +:+ new +:+ Str.replace old new t.
Proof.
  intros Hold. induction u as [|c u IH]; intros Hfirst.
  - rewrite !app_nil_l. apply replace_app_old, Hold.
  - rewrite !app_cons in *.
    rewrite replace_step by (eapply first_at_nomatch, Hfirst).
    rewrite IH; [reflexivity|]. eapply first_at_tail, Hfirst.
Qed.

(** Every occurrence has a leftmost one. *)
Lemma occurs_first old s :
  Str.occurs old s ->
  exists u t, s = u +:+ old +:+ t /\ Str.first_at old (Str.len u) s.
Proof.
  induction s as [|c s IH]; intros Hocc.
  - destruct Hocc as (a & b & H). exists a, b. split; [exact H|].
    destruct a; [|discriminate H]. intros ? ? _. unfold Str.len. simpl. lia.
  - destruct (Str.startswith old (String c s)) eqn:E.
    + apply startswith_spec in E as [t E]. exists EmptyString, t.
      split; [exact E|]. intros ? ? _. unfold Str.len. simpl. lia.
    + apply occurs_inv in Hocc as [E'|Hocc]; [congruence|].
      destruct (IH Hocc) as (u & t & -> & Hfirst).
      exists (String c u), t. split; [reflexivity|].
      intros [|d a] b H.
      * assert (Str.startswith old (String c (u +:+ old +:+ t)) = true) as E'
          by (apply startswith_spec; exists b; exact H).
        congruence.
      * rewrite app_cons in H. injection H as _ H.
        specialize (Hfirst a b H). unfold Str.len in *. simpl. lia.
Qed.

(** [str.replace] computes what [Replaced] describes, and nothing else
    does. *)
Lemma Replaced_replace old new s r :
  old <> EmptyString -> Str.Replaced old new s r -> r = Str.replace old new s.
Proof.
  intros Hold H. induction H as [s Hno|u t t' Hfirst _ IH].
  - symmetry. apply replace_no_occ, Hno.
  - rewrite replace_first by assumption. rewrite IH. reflexivity.
Qed.

Lemma replace_Replaced old new s :
  old <> EmptyString -> Str.Replaced old new s (Str.replace old new s).
Proof.
  intros Hold.
  induction s as [s IH] using (induction_ltof1 _ Str.len). unfold ltof in IH.
  destruct (Str.contains old s) eqn:E.
  - apply contains_spec, occurs_first in E as (u & t & -> & Hfirst).
    rewrite replace_first by assumption.
    apply Str.Replaced_first; [exact Hfirst|]. apply IH.
    rewrite !len_app. destruct old; [congruence|]. unfold Str.len. simpl. lia.
  - apply contains_false in E. rewrite replace_no_occ by exact E.
    apply Str.Replaced_none, E.
Qed.

Lemma replace_spec old new s r :
  old <> EmptyString ->
  Str.Replaced old new s r <-> r = Str.replace old new s.
Proof.
  intros Hold. split; [apply Replaced_replace, Hold|].
  intros ->. apply replace_Replaced, Hold.
Qed.

End ReplaceFacts.

(** ** When the rewritten text is free of the old prefix *)

Section Overlap.
Implicit Types (s t u x y old new : string).

Lemma no_overlap_spec old new :
  Str.no_overlap old new = true <->
  ~ Str.occurs old new /\ ~ Str.occurs new old /\
  Str.border old new = false /\ Str.border new old = false.
Proof.
  unfold Str.no_overlap. rewrite !andb_true_iff, !negb_true_iff, !contains_false.
  tauto.
Qed.

Lemma no_overlap_nonempty old new :
  Str.no_overlap old new = true -> old <> EmptyString.
Proof.
  intros (H & _)%no_overlap_spec ->. apply H, occurs_empty.
Qed.

Lemma border_false s t w l r :
  Str.border s t = false -> s = l +:+ w -> t = w +:+ r -> w = EmptyString.
Proof.
  intros Hb Hs Ht. destruct w as [|c w]; [reflexivity|].
  assert (Str.border s t = true) as Hb'; [|congruence].
  apply border_spec. exists (String c w), l, r. repeat split; [discriminate|assumption..].
Qed.

(** An occurrence of [old] in a text around one copy of [new] lies
    before or after that copy when the two do not overlap. *)
Lemma no_overlap_inert old new x y :
  Str.no_overlap old new = true ->
  Str.occurs old (x +:+ new +:+ y) -> Str.occurs old x \/ Str.occurs old y.
Proof.
  intros (Hon & Hno & Hb1 & Hb2)%no_overlap_spec (a & b & H).
  apply app_eq_app in H as [(l & Ea & H)|(l & Ex & H)].
  - (* the occurrence starts inside or after the copy of [new] *)
    apply app_eq_app in H as [(l' & El & Ey)|(l' & Enew & H)].
    + right. subst y. apply occurs_app_r, occurs_here.
    + apply app_eq_app in H as [(l'' & El' & Eb)|(l'' & Eold & Ey)].
      * exfalso. apply Hon. exists l, l''. subst. reflexivity.
      * right. pose proof (border_false _ _ _ _ _ Hb2 Enew Eold) as ->.
        rewrite app_nil_l in Eold. subst. apply occurs_here.
  - (* the occurrence starts before the copy of [new] *)
    apply app_eq_app in H as [(l' & El & Eb)|(l' & Eold & H)].
    + left. subst. apply occurs_app_r, occurs_here.
    + apply app_eq_app in H as [(l'' & El' & Ey)|(l'' & Enew & Eb)].
      * exfalso. apply Hno. exists l, l''. subst. reflexivity.
      * left. pose proof (border_false _ _ _ _ _ Hb1 Eold Enew) as ->.
        rewrite app_nil_r in Eold. subst. exists a, EmptyString.
        rewrite app_nil_r. reflexivity.
Qed.

Lemma first_at_before old u t :
  old <> EmptyString ->
  Str.first_at old (Str.len u) (u +:+ old +:+ t) -> ~ Str.occurs old u.
Proof.
  intros Hold Hfirst (a & b & ->).
  specialize (Hfirst a (b +:+ old +:+ t)).
  rewrite !app_assoc in Hfirst. specialize (Hfirst eq_refl).
  rewrite !len_app in Hfirst.
  destruct old; [congruence|]. unfold Str.len in Hfirst. simpl in Hfirst. lia.
Qed.

Lemma Replaced_free old new s r :
  Str.no_overlap old new = true ->
  Str.Replaced old new s r -> ~ Str.occurs old r.
Proof.
  intros Hno H. induction H as [s Hs|u t t' Hfirst _ IH]; [exact Hs|].
  intros [Hu|Ht]%no_overlap_inert; [|exact (IH Ht)|exact Hno].
  eapply first_at_before; eauto using no_overlap_nonempty.
Qed.

(** After the replacement no occurrence of [old] is left. *)
Lemma replace_free old new s :
  Str.no_overlap old new = true ->
  Str.contains old (Str.replace old new s) = false.
Proof.
  intros Hno. apply contains_false.
  eapply Replaced_free; [exact Hno|].
  apply replace_Replaced. eapply no_overlap_nonempty, Hno.
Qed.

(** A second replacement finds nothing to do. *)
Lemma replace_idem old new s :
  Str.no_overlap old new = true ->
  Str.replace old new (Str.replace old new s) = Str.replace old new s.
Proof.
  intros Hno. apply replace_no_occ, contains_false, replace_free, Hno.
Qed.

End Overlap.

(** ** Facts about the loop *)

Section LoopFacts.
Variables old_prefix sys_prefix : string.
Implicit Types (m : gmap string value) (k key : string) (keys : list string).

Lemma keys_to_replace_NoDup : NoDup keys_to_replace.
Proof. refine (bool_decide_unpack _ _). vm_compute. exact I. Qed.

Lemma getitem_inr m k v : getitem m k = inr v <-> m !! k = Some v.
Proof. unfold getitem. destruct (m !! k); split; congruence. Qed.

Lemma getitem_inl m k e : getitem m k = inl e <-> m !! k = None /\ e = KeyError k.
Proof. unfold getitem. destruct (m !! k); split; intros; intuition congruence. Qed.

(** The three ways in which one turn of the loop ends. *)
Lemma loop_body_str m key s :
  m !! key = Some (VStr s) ->
  loop_body old_prefix sys_prefix key m
  = Done (<[key := VStr (Str.replace old_prefix sys_prefix s)]> m).
Proof. intros H. unfold loop_body, getitem. rewrite H. reflexivity. Qed.


Lemma loop_body_missing m key :
  m !! key = None ->
  loop_body old_prefix sys_prefix key m = Raised (KeyError key) m.
Proof. intros H. unfold loop_body, getitem. rewrite H. reflexivity. Qed.

Lemma loop_body_Done m key m' :
  loop_body old_prefix sys_prefix key m = Done m' ->
  exists s, m !! key = Some (VStr s)
            /\ m' = <[key := VStr (Str.replace old_prefix sys_prefix s)]> m.
Proof.
  unfold loop_body, getitem.
  destruct (m !! key) as [[s|n]|]; intros H; try discriminate H.
  injection H as <-. exists s. split; reflexivity.
Qed.

Lemma loop_body_other m key k :
  k <> key -> final (loop_body old_prefix sys_prefix key m) !! k = m !! k.
Proof.
  intros Hne. unfold loop_body, getitem.
  destruct (m !! key) as [[s|n]|]; simpl; try reflexivity.
  apply lookup_insert_ne. congruence.
Qed.

(** The loop leaves the keys it does not visit alone, however it ends. *)
Lemma for_keys_other keys m k :
  k ∉ keys -> final (for_keys old_prefix sys_prefix keys m) !! k = m !! k.
Proof.
  revert m. induction keys as [|key keys IH]; intros m Hk; [reflexivity|].
  apply not_elem_of_cons in Hk as [Hne Hk]. simpl.
  pose proof (loop_body_other m key k Hne) as Hbody.
  destruct (loop_body old_prefix sys_prefix key m) as [m1|e m1]; simpl in Hbody.
  - rewrite IH by exact Hk. exact Hbody.
  - exact Hbody.
Qed.

(** The loop neither adds nor removes a key. *)
Lemma for_keys_dom keys m :
  dom (final (for_keys old_prefix sys_prefix keys m)) = dom m.
Proof.
  revert m. induction keys as [|key keys IH]; intros m; [reflexivity|]. simpl.
  destruct (loop_body old_prefix sys_prefix key m) as [m1|e m1] eqn:E.
  - rewrite IH. apply loop_body_Done in E as (s & Hs & ->).
    apply dom_insert_lookup_L. eauto.
  - unfold loop_body in E. destruct (getitem m key) as [e'|[s|n]];
      try discriminate E; injection E as _ <-; reflexivity.
Qed.

Lemma all_str_spec keys m :
  all_str keys m = true <-> forall k, k ∈ keys -> exists s, m !! k = Some (VStr s).
Proof.
  unfold all_str. rewrite forallb_forall. split.
  - intros H k Hk%list_elem_of_In. specialize (H k Hk).
    destruct (m !! k) as [[s|n]|]; try discriminate H. exists s. reflexivity.
  - intros H k Hk%list_elem_of_In. destruct (H k Hk) as [s ->]. reflexivity.
Qed.

(** The loop runs to its end when the keys it visits hold strings... *)
Lemma for_keys_total keys m :
  all_str keys m = true -> exists m', for_keys old_prefix sys_prefix keys m = Done m'.
Proof.
  revert m. induction keys as [|key keys IH]; intros m Hall.
  - exists m. reflexivity.
  - rewrite all_str_spec in Hall. destruct (Hall key) as [s Hs]; [left|].
    simpl. rewrite (loop_body_str _ _ _ Hs). apply IH, all_str_spec.
    intros k Hk. destruct (decide (k = key)) as [->|Hne].
    + rewrite lookup_insert_eq. eauto.
    + rewrite lookup_insert_ne by congruence. apply Hall. right. exact Hk.
Qed.

(** ... and only then. *)
Lemma for_keys_Done_str keys m m' :
  for_keys old_prefix sys_prefix keys m = Done m' -> all_str keys m = true.
Proof.
  revert m. induction keys as [|key keys IH]; intros m H; [reflexivity|].
  simpl in H.
  destruct (loop_body old_prefix sys_prefix key m) as [m1|e m1] eqn:E;
    [|discriminate H].
  apply loop_body_Done in E as (s & Hs & ->).
  apply IH in H. rewrite all_str_spec in *. intros k [->|Hk]%elem_of_cons; [eauto|].
  destruct (decide (k = key)) as [->|Hne]; [eauto|].
  specialize (H k Hk). rewrite lookup_insert_ne in H by congruence. exact H.
Qed.

(** Each visited key ends up with the replacement of its first value. *)
Lemma for_keys_listed keys m m' k s :
  NoDup keys ->
  for_keys old_prefix sys_prefix keys m = Done m' ->
  k ∈ keys ->
  m !! k = Some (VStr s) ->
  m' !! k = Some (VStr (Str.replace old_prefix sys_prefix s)).
Proof.
  revert m. induction keys as [|key keys IH]; intros m Hnd H Hk Hs.
  - apply elem_of_nil in Hk as [].
  - apply NoDup_cons in Hnd as [Hkey Hnd]. simpl in H.
    destruct (loop_body old_prefix sys_prefix key m) as [m1|e m1] eqn:E;
      [|discriminate H].
    apply loop_body_Done in E as (s1 & Hs1 & ->).
    apply elem_of_cons in Hk as [->|Hk].
    + pose proof (for_keys_other keys
        (<[key := VStr (Str.replace old_prefix sys_prefix s1)]> m) key Hkey) as Hother.
      rewrite H in Hother. simpl in Hother.
      rewrite Hother, lookup_insert_eq. congruence.
    + apply (IH _ Hnd H Hk).
      rewrite lookup_insert_ne; [exact Hs|]. intros ->. contradiction.
Qed.

End LoopFacts.

(** ** Facts about the whole module body *)

Section ModuleFacts.
Implicit Types (m : gmap string value) (k key : string).

Lemma slice_to_neg_app p sfx :
  Str.slice_to_neg (Str.len sfx) (p +:+ sfx) = p.
Proof.
  unfold Str.slice_to_neg. rewrite len_app, Nat.add_sub. apply take_app.
Qed.

Lemma prefix_inr m old_prefix :
  prefix m = inr old_prefix <->
  exists s, m !! "BINDIR" = Some (VStr s) /\ old_prefix = Str.slice_to_neg 4 s.
Proof.
  unfold prefix, getitem. destruct (m !! "BINDIR") as [[s|n]|].
  - split; [intros [= <-]; eauto|]. intros (s' & [= <-] & ->). reflexivity.
  - split; [discriminate|]. intros (s' & [=] & _).
  - split; [discriminate|]. intros (s' & [=] & _).
Qed.

Lemma bindir_listed : "BINDIR" ∈ keys_to_replace.
Proof. left. Qed.

(** The module body runs to its end when the listed keys hold strings. *)
Lemma load_and_normalize_total sys_prefix m :
  all_str keys_to_replace m = true ->
  exists old_prefix m',
    prefix m = inr old_prefix /\
    normalize old_prefix sys_prefix m = Done m' /\
    load_and_normalize sys_prefix m = Done m'.
Proof.
  intros Hall.
  destruct (proj1 (all_str_spec _ _) Hall "BINDIR" bindir_listed) as [s Hs].
  exists (Str.slice_to_neg 4 s).
  destruct (for_keys_total (Str.slice_to_neg 4 s) sys_prefix _ _ Hall) as [m' Hm'].
  exists m'. assert (prefix m = inr (Str.slice_to_neg 4 s)) as Hp
    by (apply prefix_inr; eauto).
  unfold load_and_normalize. rewrite Hp. auto.
Qed.

Lemma load_and_normalize_Done sys_prefix m m' :
  load_and_normalize sys_prefix m = Done m' ->
  exists old_prefix,
    prefix m = inr old_prefix /\ normalize old_prefix sys_prefix m = Done m'.
Proof.
  unfold load_and_normalize. destruct (prefix m) as [e|old]; [discriminate|].
  eauto.
Qed.

End ModuleFacts.

(** ** The claims of the specification *)

(** Python's own examples of [str.replace], as tests of the embedding. *)
Example replace_every_occurrence :
  Str.replace "/opt/app" "/usr/local" "/opt/app/include -I/opt/app/include2"
  = "/usr/local/include -I/usr/local/include2".
Proof. reflexivity. Qed.

Example replace_no_overlapping : Str.replace "aa" "b" "aaaaa" = "bba".
Proof. reflexivity. Qed.

Example replace_empty_pattern : Str.replace EmptyString "-" "abc" = "-a-b-c-".
Proof. reflexivity. Qed.

Example replace_case_sensitive :
  Str.replace "/opt/app" "/usr/local" "/OPT/APP/lib" = "/OPT/APP/lib".
Proof. reflexivity. Qed.

Example slice_short : Str.slice_to_neg 4 "bin" = EmptyString.
Proof. reflexivity. Qed.

(** C1.  When the listed keys hold strings, the module body runs to its
    end and every key of [keys_to_replace] then holds, under the same key,
    its former value with every occurrence of the derived [old_prefix]
    replaced by [sys.prefix]: the new value is [str.replace] of the old
    one, and for a non-empty [old_prefix] that is the left-to-right
    replacement of all occurrences described by [Str.Replaced]. *)
Theorem C1_listed_keys_rewritten (sys_prefix : string) (m : gmap string value) :
  all_str keys_to_replace m = true ->
  exists old_prefix m',
    prefix m = inr old_prefix /\
    load_and_normalize sys_prefix m = Done m' /\
    forall key, key ∈ keys_to_replace ->
      exists s s',
        m !! key = Some (VStr s) /\
        m' !! key = Some (VStr s') /\
        s' = Str.replace old_prefix sys_prefix s /\
        (old_prefix <> EmptyString -> Str.Replaced old_prefix sys_prefix s s').
Proof.
  intros Hall.
  destruct (load_and_normalize_total sys_prefix m Hall) as (old & m' & Hp & Hn & Hl).
  exists old, m'. split; [exact Hp|]. split; [exact Hl|].
  intros key Hkey.
  destruct (proj1 (all_str_spec _ _) Hall key Hkey) as [s Hs].
  exists s, (Str.replace old sys_prefix s). split; [exact Hs|]. split.
  - exact (for_keys_listed _ _ _ _ _ _ _ keys_to_replace_NoDup Hn Hkey Hs).
  - split; [reflexivity|]. intros Hold. apply replace_Replaced, Hold.
Qed.

(** C1 on the installation under [/opt/app]: both occurrences in one value
    are rewritten, an occurrence that is not at the start is rewritten, and
    text that differs in case is not. *)
Lemma C1_listed_keys_rewritten_witness :
  exists m',
    load_and_normalize "/usr/local" scenario = Done m' /\
    m' !! "INCLDIRSTOMAKE" = Some (VStr "/usr/local/include -I/usr/local/include2") /\
    m' !! "CONFINCLUDEPY" = Some (VStr "-I/usr/local/include") /\
    m' !! "LIBPL" = Some (VStr "/OPT/APP/lib/config").
Proof.
  destruct (C1_listed_keys_rewritten "/usr/local" scenario)
    as (old & m' & Hp & Hl & Hkeys); [vm_compute; reflexivity|].
  assert (old = "/opt/app") as -> by (vm_compute in Hp; congruence).
  exists m'. split; [exact Hl|].
  assert (forall key s, key ∈ keys_to_replace -> scenario !! key = Some (VStr s) ->
            m' !! key = Some (VStr (Str.replace "/opt/app" "/usr/local" s))) as H.
  { intros key s Hkey Hs. destruct (Hkeys key Hkey) as (s0 & s' & Hs0 & Hs' & -> & _).
    congruence. }
  split; [|split].
  - apply (H "INCLDIRSTOMAKE" "/opt/app/include -I/opt/app/include2");
      [refine (bool_decide_unpack _ _); vm_compute; exact I|vm_compute; reflexivity].
  - apply (H "CONFINCLUDEPY" "-I/opt/app/include");
      [refine (bool_decide_unpack _ _); vm_compute; exact I|vm_compute; reflexivity].
  - apply (H "LIBPL" "/OPT/APP/lib/config");
      [refine (bool_decide_unpack _ _); vm_compute; exact I|vm_compute; reflexivity].
Defined.

(** C2.  A key that is not in [keys_to_replace] holds the same value
    before and after the module body has run, however the run ends, and
    the run neither adds nor removes a key. *)
Theorem C2_unlisted_keys_untouched (sys_prefix : string)
    (m : gmap string value) (key : string) :
  key ∉ keys_to_replace ->
  final (load_and_normalize sys_prefix m) !! key = m !! key
  /\ dom (final (load_and_normalize sys_prefix m)) = dom m.
Proof.
  intros Hkey. unfold load_and_normalize.
  destruct (prefix m) as [e|old]; [split; reflexivity|]. split.
  - apply for_keys_other, Hkey.
  - apply for_keys_dom.
Qed.

(** C2 on the embedded table: the compiler flags survive a relocation. *)
Lemma C2_unlisted_keys_untouched_witness :
  final (load_and_normalize "D:/python" build_time_vars) !! "CPPFLAGS"
  = build_time_vars !! "CPPFLAGS"
  /\ dom (final (load_and_normalize "D:/python" build_time_vars))
     = dom build_time_vars.
Proof.
  apply (C2_unlisted_keys_untouched "D:/python" build_time_vars "CPPFLAGS").
  refine (bool_decide_unpack _ _). vm_compute. exact I.
Defined.

(** C3.  When the ['BINDIR'] entry is [p] followed by ["/bin"], the derived
    [old_prefix] is [p]; and a listed value that starts with a non-empty
    [p] then starts with [sys.prefix] instead. *)
Theorem C3_old_prefix_strips_bin (sys_prefix : string) (m : gmap string value)
    (p key t : string) :
  m !! "BINDIR" = Some (VStr (p +:+ "/bin")) ->
  prefix m = inr p
  /\ (all_str keys_to_replace m = true ->
      key ∈ keys_to_replace ->
      p <> EmptyString ->
      m !! key = Some (VStr (p +:+ t)) ->
      final (load_and_normalize sys_prefix m) !! key
      = Some (VStr (sys_prefix +:+ Str.replace p sys_prefix t))).
Proof.
  intros Hbin.
  assert (prefix m = inr p) as Hp.
  { apply prefix_inr. exists (p +:+ "/bin"). split; [exact Hbin|].
    symmetry. apply (slice_to_neg_app p "/bin"). }
  split; [exact Hp|]. intros Hall Hkey Hne Hs.
  destruct (load_and_normalize_total sys_prefix m Hall) as (old & m' & Hp' & Hn & Hl).
  assert (old = p) as -> by congruence.
  rewrite Hl. simpl.
  rewrite (for_keys_listed _ _ _ _ _ _ _ keys_to_replace_NoDup Hn Hkey Hs).
  rewrite replace_app_old by exact Hne. reflexivity.
Qed.

(** C3 on the scenario of the specification. *)
Lemma C3_old_prefix_strips_bin_witness :
  prefix scenario = inr "/opt/app"
  /\ final (load_and_normalize "/usr/local" scenario) !! "LIBDEST"
     = Some (VStr "/usr/local/lib/app3.9").
Proof.
  destruct (C3_old_prefix_strips_bin "/usr/local" scenario "/opt/app" "LIBDEST"
              "/lib/app3.9") as [Hp Hv]; [vm_compute; reflexivity|].
  split; [exact Hp|].
  rewrite Hv.
  - vm_compute. reflexivity.
  - vm_compute. reflexivity.
  - refine (bool_decide_unpack _ _). vm_compute. exact I.
  - discriminate.
  - vm_compute. reflexivity.
Defined.

(** C4 as stated fails: ["/opt"] does not contain ["/opt/app"], yet a
    second pass rewrites ["/opt/app/lib"], which the first pass made out of
    ["/opt/app/app/lib"], once more. *)
Lemma C4_counterexample :
  Str.contains "/opt/app" "/opt" = false
  /\ scenario !! "MACHDESTLIB" = Some (VStr "/opt/app/app/lib")
  /\ raised (normalize_twice "/opt/app" "/opt" scenario) = None
  /\ final (normalize "/opt/app" "/opt" scenario) !! "MACHDESTLIB"
     = Some (VStr "/opt/app/lib")
  /\ final (normalize_twice "/opt/app" "/opt" scenario) !! "MACHDESTLIB"
     = Some (VStr "/opt/lib")
  /\ normalize_twice "/opt/app" "/opt" scenario
     <> normalize "/opt/app" "/opt" scenario.
Proof.
  repeat split; try (vm_compute; reflexivity).
  intros H.
  assert (final (normalize_twice "/opt/app" "/opt" scenario) !! "MACHDESTLIB"
          = final (normalize "/opt/app" "/opt" scenario) !! "MACHDESTLIB") as H'
    by (rewrite H; reflexivity).
  vm_compute in H'. discriminate H'.
Qed.

(** C4, amended.  When [old_prefix] and the new prefix do not overlap
    (neither occurs in the other, and no non-empty end of one is a start of
    the other), running the normalization pass a second time yields what
    the first run yielded. *)
Theorem C4_idempotent_without_overlap (old_prefix new_prefix : string)
    (m : gmap string value) :
  Str.no_overlap old_prefix new_prefix = true ->
  normalize_twice old_prefix new_prefix m = normalize old_prefix new_prefix m.
Proof.
  intros Hno. unfold normalize_twice.
  destruct (normalize old_prefix new_prefix m) as [m1|e m1] eqn:E1; [|reflexivity].
  unfold normalize in *.
  pose proof (for_keys_Done_str _ _ _ _ _ E1) as Hall.
  assert (forall k, k ∈ keys_to_replace ->
            exists s, m1 !! k
                      = Some (VStr (Str.replace old_prefix new_prefix s))) as H1.
  { intros k Hk. destruct (proj1 (all_str_spec _ _) Hall k Hk) as [s Hs].
    exists s. exact (for_keys_listed _ _ _ _ _ _ _ keys_to_replace_NoDup E1 Hk Hs). }
  destruct (for_keys_total old_prefix new_prefix keys_to_replace m1) as [m2 E2].
  { apply all_str_spec. intros k Hk. destruct (H1 k Hk) as [s Hs]. eauto. }
  rewrite E2. f_equal. apply map_eq. intros k.
  destruct (decide (k ∈ keys_to_replace)) as [Hk|Hk].
  - destruct (H1 k Hk) as [s Hs].
    rewrite (for_keys_listed _ _ _ _ _ _ _ keys_to_replace_NoDup E2 Hk Hs), Hs.
    rewrite replace_idem by exact Hno. reflexivity.
  - pose proof (for_keys_other old_prefix new_prefix _ m1 k Hk) as H.
    rewrite E2 in H. exact H.
Qed.

Lemma C4_idempotent_without_overlap_witness :
  normalize_twice "/opt/app" "/usr/local" scenario
  = normalize "/opt/app" "/usr/local" scenario.
Proof.
  apply (C4_idempotent_without_overlap "/opt/app" "/usr/local" scenario).
  vm_compute. reflexivity.
Defined.

(** C5 as stated fails: relocating from ["/opt/app"] to ["/opt"], which
    does not contain ["/opt/app"], turns the listed value
    ["/opt/app/app/lib"] into ["/opt/app/lib"], which does. *)
Lemma C5_counterexample :
  prefix scenario = inr "/opt/app"
  /\ Str.contains "/opt/app" "/opt" = false
  /\ "MACHDESTLIB" ∈ keys_to_replace
  /\ raised (load_and_normalize "/opt" scenario) = None
  /\ final (load_and_normalize "/opt" scenario) !! "MACHDESTLIB"
     = Some (VStr "/opt/app/lib")
  /\ Str.contains "/opt/app" "/opt/app/lib" = true.
Proof.
  repeat split; try (vm_compute; reflexivity).
  refine (bool_decide_unpack _ _). vm_compute. exact I.
Qed.

(** C5, amended.  When the derived [old_prefix] and [sys.prefix] do not
    overlap (neither occurs in the other, and no non-empty end of one is a
    start of the other), no listed key's value contains [old_prefix] after
    the module body has run. *)
Theorem C5_old_prefix_gone_without_overlap (sys_prefix : string)
    (m : gmap string value) (old_prefix key : string) :
  all_str keys_to_replace m = true ->
  prefix m = inr old_prefix ->
  Str.no_overlap old_prefix sys_prefix = true ->
  key ∈ keys_to_replace ->
  exists m' s',
    load_and_normalize sys_prefix m = Done m'
    /\ m' !! key = Some (VStr s')
    /\ Str.contains old_prefix s' = false.
Proof.
  intros Hall Hp Hno Hkey.
  destruct (load_and_normalize_total sys_prefix m Hall) as (old & m' & Hp' & Hn & Hl).
  assert (old = old_prefix) as -> by congruence.
  destruct (proj1 (all_str_spec _ _) Hall key Hkey) as [s Hs].
  exists m', (Str.replace old_prefix sys_prefix s). split; [exact Hl|]. split.
  - exact (for_keys_listed _ _ _ _ _ _ _ keys_to_replace_NoDup Hn Hkey Hs).
  - apply replace_free, Hno.
Qed.

Lemma C5_old_prefix_gone_without_overlap_witness :
  exists m' s',
    load_and_normalize "/usr/local" scenario = Done m'
    /\ m' !! "DESTDIRS" = Some (VStr s')
    /\ Str.contains "/opt/app" s' = false.
Proof.
  apply (C5_old_prefix_gone_without_overlap "/usr/local" scenario "/opt/app" "DESTDIRS").
  - vm_compute. reflexivity.
  - vm_compute. reflexivity.
  - vm_compute. reflexivity.
  - refine (bool_decide_unpack _ _). vm_compute. exact I.
Defined.

(** C6 as stated fails: ["/opt/app"] is not at the start of the listed
    value ["-I/opt/app/include"], and the value is rewritten all the same. *)
Lemma C6_counterexample :
  prefix scenario = inr "/opt/app"
  /\ "CONFINCLUDEPY" ∈ keys_to_replace
  /\ scenario !! "CONFINCLUDEPY" = Some (VStr "-I/opt/app/include")
  /\ Str.startswith "/opt/app" "-I/opt/app/include" = false
  /\ raised (load_and_normalize "/usr/local" scenario) = None
  /\ final (load_and_normalize "/usr/local" scenario) !! "CONFINCLUDEPY"
     = Some (VStr "-I/usr/local/include").
Proof.
  repeat split; try (vm_compute; reflexivity).
  refine (bool_decide_unpack _ _). vm_compute. exact I.
Qed.

(** C6, amended.  For every listed key, either the derived [old_prefix]
    occurs somewhere in the key's value, not necessarily at its start, or
    the value is the same after the module body has run. *)
Theorem C6_occurs_or_unchanged (sys_prefix : string) (m : gmap string value)
    (old_prefix key s : string) :
  all_str keys_to_replace m = true ->
  prefix m = inr old_prefix ->
  key ∈ keys_to_replace ->
  m !! key = Some (VStr s) ->
  exists m',
    load_and_normalize sys_prefix m = Done m'
    /\ (Str.contains old_prefix s = true \/ m' !! key = Some (VStr s)).
Proof.
  intros Hall Hp Hkey Hs.
  destruct (load_and_normalize_total sys_prefix m Hall) as (old & m' & Hp' & Hn & Hl).
  assert (old = old_prefix) as -> by congruence.
  exists m'. split; [exact Hl|].
  destruct (Str.contains old_prefix s) eqn:E; [left; reflexivity|right].
  rewrite (for_keys_listed _ _ _ _ _ _ _ keys_to_replace_NoDup Hn Hkey Hs).
  rewrite replace_no_occ; [reflexivity|]. apply contains_false, E.
Qed.

Lemma C6_occurs_or_unchanged_witness :
  exists m',
    load_and_normalize "/usr/local" scenario = Done m'
    /\ (Str.contains "/opt/app" "/usr/share/zoneinfo" = true
        \/ m' !! "TZPATH" = Some (VStr "/usr/share/zoneinfo")).
Proof.
  apply (C6_occurs_or_unchanged "/usr/local" scenario "/opt/app" "TZPATH").
  - vm_compute. reflexivity.
  - vm_compute. reflexivity.
  - refine (bool_decide_unpack _ _). vm_compute. exact I.
  - vm_compute. reflexivity.
Defined.

(** C7.  Without a ['BINDIR'] entry the module body stops at the
    derivation of the prefix with [KeyError('BINDIR')]: the loop is not
    entered, the table is as it was, and no table is delivered.  A lookup
    that fails later is a different event: it is the result of a query on a
    table that a successful run delivered, and it never concerns a listed
    key, since all of them are present then. *)
Theorem C7_missing_reference_key_fails_load (sys_prefix : string)
    (m : gmap string value) :
  m !! "BINDIR" = None ->
  prefix m = inl (KeyError "BINDIR")
  /\ load_and_normalize sys_prefix m = Raised (KeyError "BINDIR") m
  /\ (forall m', load_and_normalize sys_prefix m <> Done m')
  /\ (forall m0 m' key,
        load_and_normalize sys_prefix m0 = Done m' ->
        m' !! key = None ->
        getitem m' key = inl (KeyError key) /\ (key ∉ keys_to_replace)).
Proof.
  intros Hnone.
  assert (prefix m = inl (KeyError "BINDIR")) as Hp
    by (unfold prefix, getitem; rewrite Hnone; reflexivity).
  assert (load_and_normalize sys_prefix m = Raised (KeyError "BINDIR") m) as Hl
    by (unfold load_and_normalize; rewrite Hp; reflexivity).
  split; [exact Hp|]. split; [exact Hl|]. split.
  - intros m'. rewrite Hl. discriminate.
  - intros m0 m' key Hdone Hkey. split.
    + apply getitem_inl. split; [exact Hkey|reflexivity].
    + intros Hin.
      apply load_and_normalize_Done in Hdone as (old & _ & Hn).
      pose proof (for_keys_Done_str _ _ _ _ _ Hn) as Hall.
      destruct (proj1 (all_str_spec _ _) Hall key Hin) as [s Hs].
      pose proof (for_keys_listed _ _ _ _ _ _ _ keys_to_replace_NoDup Hn Hin Hs).
      congruence.
Qed.

(** C7 on the installation under [/opt/app] with its ['BINDIR'] entry
    removed. *)
Lemma C7_missing_reference_key_fails_load_witness :
  load_and_normalize "/usr/local" scenario_no_bindir
  = Raised (KeyError "BINDIR") scenario_no_bindir.
Proof.
  apply (C7_missing_reference_key_fails_load "/usr/local" scenario_no_bindir).
  vm_compute. reflexivity.
Defined.

(** C8.  The list [keys_to_replace] has 20 keys, each of them is in
    [build_time_vars] and holds a string, and so the module body runs to
    its end on the embedded table whatever [sys.prefix] is: neither the
    lookup nor the call of [replace] raises. *)
Theorem C8_embedded_table_total :
  length keys_to_replace = 20
  /\ Forall (fun key => exists s, build_time_vars !! key = Some (VStr s))
       keys_to_replace
  /\ forall sys_prefix,
       raised (load_and_normalize sys_prefix build_time_vars) = None
       /\ exists m', load_and_normalize sys_prefix build_time_vars = Done m'.
Proof.
  assert (all_str keys_to_replace build_time_vars = true) as Hall
    by (vm_compute; reflexivity).
  split; [reflexivity|]. split.
  - apply Forall_forall. intros key Hkey. exact (proj1 (all_str_spec _ _) Hall key Hkey).
  - intros sys_prefix.
    destruct (load_and_normalize_total sys_prefix _ Hall) as (old & m' & _ & _ & Hl).
    rewrite Hl. split; [reflexivity|]. exists m'. reflexivity.
Qed.

(** C9.  ['prefix'] and ['prefix_b2h'] are not listed and ['exec_prefix']
    is; so after the module body has run on the embedded table,
    ['prefix'] and ['prefix_b2h'] still hold the build-time install path,
    which is the derived [old_prefix], while ['exec_prefix'] holds
    [sys.prefix]. *)
Theorem C9_prefix_entries_left_behind (sys_prefix : string) :
  ("prefix" ∉ keys_to_replace)
  /\ ("prefix_b2h" ∉ keys_to_replace)
  /\ ("exec_prefix" ∈ keys_to_replace)
  /\ exists old_prefix m',
       prefix build_time_vars = inr old_prefix
       /\ load_and_normalize sys_prefix build_time_vars = Done m'
       /\ build_time_vars !! "exec_prefix" = Some (VStr old_prefix)
       /\ m' !! "prefix" = Some (VStr old_prefix)
       /\ m' !! "prefix_b2h" = Some (VStr old_prefix)
       /\ m' !! "exec_prefix" = Some (VStr sys_prefix).
Proof.
  assert ("prefix" ∉ keys_to_replace) as H1
    by (refine (bool_decide_unpack _ _); vm_compute; exact I).
  assert ("prefix_b2h" ∉ keys_to_replace) as H2
    by (refine (bool_decide_unpack _ _); vm_compute; exact I).
  assert ("exec_prefix" ∈ keys_to_replace) as H3
    by (refine (bool_decide_unpack _ _); vm_compute; exact I).
  split; [exact H1|]. split; [exact H2|]. split; [exact H3|].
  destruct (load_and_normalize_total sys_prefix build_time_vars)
    as (old & m' & Hp & Hn & Hl); [vm_compute; reflexivity|].
  exists old, m'.
  assert (build_time_vars !! "exec_prefix" = Some (VStr old)
          /\ build_time_vars !! "prefix" = Some (VStr old)
          /\ build_time_vars !! "prefix_b2h" = Some (VStr old)
          /\ old <> EmptyString) as (Hexec & Hpre & Hb2h & Hold).
  { vm_compute in Hp. injection Hp as <-.
    repeat split; try (vm_compute; reflexivity). discriminate. }
  split; [exact Hp|]. split; [exact Hl|]. split; [exact Hexec|].
  pose proof (for_keys_other old sys_prefix keys_to_replace build_time_vars _ H1) as E1.
  pose proof (for_keys_other old sys_prefix keys_to_replace build_time_vars _ H2) as E2.
  unfold normalize in Hn. rewrite Hn in E1, E2. unfold final in E1, E2.
  split; [rewrite E1; exact Hpre|]. split; [rewrite E2; exact Hb2h|].
  rewrite (for_keys_listed _ _ _ _ _ _ _ keys_to_replace_NoDup Hn H3 Hexec).
  rewrite replace_self by exact Hold. reflexivity.
Qed.

(** C10.  The ['BINDIR'] entry of the embedded table is the derived
    [old_prefix] followed by ["/bin"], it is longer than 4 characters, and
    [old_prefix] is not empty. *)
Theorem C10_embedded_bindir_shape :
  exists old_prefix,
    prefix build_time_vars = inr old_prefix
    /\ build_time_vars !! "BINDIR" = Some (VStr (old_prefix +:+ "/bin"))
    /\ 4 < Str.len (old_prefix +:+ "/bin")
    /\ old_prefix <> EmptyString
    /\ old_prefix = "C:/buildroot/x86_64-1320-win32-seh-ucrt-rt_v11-rev0/mingw64/opt".
Proof.
  exists "C:/buildroot/x86_64-1320-win32-seh-ucrt-rt_v11-rev0/mingw64/opt".
  split; [vm_compute; reflexivity|]. split; [vm_compute; reflexivity|].
  split; [vm_compute; lia|]. split; [discriminate|reflexivity].
Qed.

(** ** Further facts about [str.replace] *)

Section MoreReplaceFacts.
Implicit Types (s t u old new : string) (c : ascii).

Lemma app_inv_head u s t : u +:+ s = u +:+ t -> s = t.
Proof.
  induction u as [|c u IH]; intros H; [exact H|].
  rewrite !app_cons in H. injection H as H. apply IH, H.
Qed.

Lemma len_cons c s : Str.len (String c s) = S (Str.len s).
Proof. reflexivity. Qed.

Lemma interleave_empty s : Str.interleave EmptyString s = s.
Proof.
  induction s as [|c s IH]; [reflexivity|].
  simpl. rewrite app_nil_l, IH. reflexivity.
Qed.

(** With an empty pattern the replacement text is inserted [len s + 1]
    times. *)
Lemma len_interleave new s :
  Str.len (Str.interleave new s) = Str.len s + (Str.len s + 1) * Str.len new.
Proof.
  induction s as [|c s IH]; simpl.
  - unfold Str.len. simpl. lia.
  - rewrite len_app, !len_cons, IH. lia.
Qed.

Lemma Replaced_same old s r : Str.Replaced old old s r -> r = s.
Proof.
  intros H. induction H as [s _|u t t' _ _ IH]; [reflexivity|].
  rewrite IH. reflexivity.
Qed.

(** Replacing a text by itself changes nothing. *)
Lemma replace_same old s : Str.replace old old s = s.
Proof.
  destruct old as [|a o]; [apply interleave_empty|].
  apply (Replaced_same (String a o)), replace_Replaced. discriminate.
Qed.

Lemma Replaced_len_le old new s r :
  Str.Replaced old new s r -> Str.len new <= Str.len old -> Str.len r <= Str.len s.
Proof.
  intros H Hle. induction H as [s _|u t t' _ _ IH]; [lia|].
  rewrite !len_app. lia.
Qed.

Lemma Replaced_len_ge old new s r :
  Str.Replaced old new s r -> Str.len old <= Str.len new -> Str.len s <= Str.len r.
Proof.
  intros H Hle. induction H as [s _|u t t' _ _ IH]; [lia|].
  rewrite !len_app. lia.
Qed.

(** A value comes back as it was exactly when there was nothing to
    replace or the replacement is the pattern itself. *)
Lemma replace_fixed_iff old new s :
  Str.replace old new s = s <-> Str.contains old s = false \/ old = new.
Proof.
  split.
  - intros Hfix. destruct (Str.contains old s) eqn:E; [right|left; reflexivity].
    destruct old as [|a o].
    + simpl in Hfix. apply (f_equal Str.len) in Hfix.
      rewrite len_interleave in Hfix. symmetry. apply len_zero. nia.
    + assert (String a o <> EmptyString) as Hold by discriminate.
      apply contains_spec, occurs_first in E as (u & t & -> & Hfirst).
      rewrite replace_first in Hfix by assumption.
      apply app_inv_head in Hfix.
      pose proof (replace_Replaced (String a o) new t Hold) as Hr.
      apply app_eq_app in Hfix as [(l & Hl & Ht)|(l & Hl & Ht)].
      * assert (Str.len l = 0) as Hz.
        { apply (f_equal Str.len) in Hl, Ht. rewrite len_app in Hl, Ht.
          pose proof (Replaced_len_le _ _ _ _ Hr). lia. }
        apply len_zero in Hz. subst l. rewrite app_nil_r in Hl. exact Hl.
      * assert (Str.len l = 0) as Hz.
        { apply (f_equal Str.len) in Hl, Ht. rewrite len_app in Hl, Ht.
          pose proof (Replaced_len_ge _ _ _ _ Hr). lia. }
        apply len_zero in Hz. subst l. rewrite app_nil_r in Hl. symmetry. exact Hl.
  - intros [E| ->]; [|apply replace_same].
    apply replace_no_occ, contains_false, E.
Qed.

Lemma self_border_false c s w l r :
  Str.self_border (String c s) = false ->
  s = l +:+ w -> String c s = w +:+ r -> w = EmptyString.
Proof. intros H. exact (border_false s (String c s) w l r H). Qed.

(** In front of a copy of an unbordered [new] that follows a text without
    [new], no occurrence of [new] starts. *)
Lemma unbordered_first_at new u y :
  Str.self_border new = false ->
  ~ Str.occurs new u ->
  Str.first_at new (Str.len u) (u +:+ new +:+ y).
Proof.
  intros Hsb Hu a b H.
  apply app_eq_app in H as [(l & Ea & _)|(l & Eu & H)].
  - subst a. rewrite len_app. lia.
  - destruct l as [|d l]; [subst u; rewrite app_nil_r; lia|]. exfalso.
    apply app_eq_app in H as [(l' & El & _)|(l' & Enew & H)].
    + apply Hu. exists a, l'. subst u. rewrite El. reflexivity.
    + destruct l' as [|e l'].
      * apply Hu. rewrite app_nil_r in Enew. subst.
        exists a, EmptyString. rewrite app_nil_r. reflexivity.
      * apply app_eq_app in H as [(l'' & El' & _)|(l'' & Enew' & _)].
        -- apply (f_equal Str.len) in Enew, El'.
           rewrite !len_app, !len_cons in *. lia.
        -- rewrite Enew, app_cons in Hsb. rewrite Enew, app_cons in Enew'.
           pose proof (self_border_false _ _ _ _ _ Hsb eq_refl Enew'). discriminate.
Qed.

Lemma Replaced_undo old new s r :
  Str.Replaced old new s r ->
  Str.self_border new = false ->
  ~ Str.occurs new s ->
  Str.replace new old r = s.
Proof.
  intros H Hsb. induction H as [s _|u t t' _ _ IH]; intros Hs.
  - apply replace_no_occ, Hs.
  - assert (new <> EmptyString) as Hnew by (intros ->; apply Hs, occurs_empty).
    rewrite replace_first.
    + rewrite IH; [reflexivity|]. intros Ht. apply Hs, occurs_app_r, occurs_app_r, Ht.
    + exact Hnew.
    + apply unbordered_first_at; [exact Hsb|]. intros Hu. apply Hs, occurs_app_l, Hu.
Qed.

(** Replacing back restores a value in which the replacement text did not
    occur, provided that text is unbordered. *)
Lemma replace_undo old new s :
  old <> EmptyString ->
  Str.self_border new = false ->
  Str.contains new s = false ->
  Str.replace new old (Str.replace old new s) = s.
Proof.
  intros Hold Hsb Hs. eapply Replaced_undo; [|exact Hsb|apply contains_false, Hs].
  apply replace_Replaced, Hold.
Qed.

End MoreReplaceFacts.

(** ** Further facts about the loop *)

Section MoreLoopFacts.
Variables old_prefix sys_prefix : string.
Implicit Types (m : gmap string value) (k key : string) (keys : list string).

(** The loop over a list in two parts. *)
Lemma for_keys_app keys1 keys2 m :
  for_keys old_prefix sys_prefix (keys1 ++ keys2) m
  = match for_keys old_prefix sys_prefix keys1 m with
    | Done m1 => for_keys old_prefix sys_prefix keys2 m1
    | Raised e m1 => Raised e m1
    end.
Proof.
  revert m. induction keys1 as [|key keys1 IH]; intros m; [reflexivity|].
  simpl. destruct (loop_body old_prefix sys_prefix key m); [apply IH|reflexivity].
Qed.

(** The loop up to its first key that is absent or holds no string. *)
Lemma for_keys_stops pre key post m :
  NoDup (pre ++ key :: post) ->
  all_str pre m = true ->
  exists m1,
    for_keys old_prefix sys_prefix pre m = Done m1
    /\ m1 !! key = m !! key
    /\ (forall k s, k ∈ pre -> m !! k = Some (VStr s) ->
          m1 !! k = Some (VStr (Str.replace old_prefix sys_prefix s)))
    /\ (forall k, k ∉ pre -> m1 !! k = m !! k)
    /\ for_keys old_prefix sys_prefix (pre ++ key :: post) m
       = match loop_body old_prefix sys_prefix key m1 with
         | Done m2 => for_keys old_prefix sys_prefix post m2
         | Raised e m2 => Raised e m2
         end.
Proof.
  intros Hnd Hall.
  apply NoDup_app in Hnd as (Hpre & Hdisj & _).
  destruct (for_keys_total old_prefix sys_prefix pre m Hall) as [m1 H1].
  assert (forall k, k ∉ pre -> m1 !! k = m !! k) as Hother.
  { intros k Hk. pose proof (for_keys_other old_prefix sys_prefix pre m k Hk) as H.
    rewrite H1 in H. exact H. }
  exists m1. split; [exact H1|]. split.
  { apply Hother. intros Hin. apply (Hdisj key Hin). left. }
  split; [|split; [exact Hother|]].
  - intros k s Hk Hs. exact (for_keys_listed _ _ _ _ _ _ _ Hpre H1 Hk Hs).
  - rewrite for_keys_app, H1. reflexivity.
Qed.

(** The loop raises [KeyError] or [AttributeError], nothing else. *)
Lemma for_keys_raised keys m e :
  raised (for_keys old_prefix sys_prefix keys m) = Some e ->
  e = AttributeError \/ exists key, key ∈ keys /\ e = KeyError key.
Proof.
  revert m. induction keys as [|key keys IH]; intros m H; [discriminate H|].
  simpl in H. unfold loop_body, getitem in H.
  destruct (m !! key) as [[s|n]|].
  - destruct (IH _ H) as [->|(k & Hk & ->)]; [left; reflexivity|right].
    exists k. split; [right; exact Hk|reflexivity].
  - injection H as <-. left. reflexivity.
  - injection H as <-. right. exists key. split; [left|reflexivity].
Qed.

(** The loop never turns a string into something else, nor the reverse,
    and it never touches an [int]. *)
Lemma for_keys_is_str keys m k :
  is_str (final (for_keys old_prefix sys_prefix keys m) !! k) = is_str (m !! k).
Proof.
  revert m. induction keys as [|key keys IH]; intros m; [reflexivity|].
  simpl. unfold loop_body, getitem.
  destruct (m !! key) as [[s|n]|] eqn:E; try reflexivity.
  rewrite IH. destruct (decide (k = key)) as [->|Hne].
  - rewrite lookup_insert_eq, E. reflexivity.
  - rewrite lookup_insert_ne by congruence. reflexivity.
Qed.

Lemma for_keys_int keys m k n :
  m !! k = Some (VInt n) ->
  final (for_keys old_prefix sys_prefix keys m) !! k = Some (VInt n).
Proof.
  revert m. induction keys as [|key keys IH]; intros m Hk; [exact Hk|].
  simpl. unfold loop_body, getitem.
  destruct (m !! key) as [[s|n']|] eqn:E; try exact Hk.
  apply IH. rewrite lookup_insert_ne; [exact Hk|]. intros ->. congruence.
Qed.

End MoreLoopFacts.

Section SamePrefix.
Implicit Types (m : gmap string value) (keys : list string).

(** Replacing a prefix by itself leaves the table as it is. *)
Lemma for_keys_same p keys m : final (for_keys p p keys m) = m.
Proof.
  revert m. induction keys as [|key keys IH]; intros m; [reflexivity|].
  simpl. unfold loop_body, getitem.
  destruct (m !! key) as [[s|n]|] eqn:E; try reflexivity.
  rewrite replace_same, insert_id by exact E. apply IH.
Qed.

Lemma slice_to_neg_short k s : Str.len s <= k -> Str.slice_to_neg k s = EmptyString.
Proof.
  intros H. unfold Str.slice_to_neg.
  replace (Str.len s - k) with 0 by lia. destruct s; reflexivity.
Qed.

Lemma listed_free_spec p m :
  listed_free p m = true <->
  forall k s, k ∈ keys_to_replace -> m !! k = Some (VStr s) -> Str.contains p s = false.
Proof.
  unfold listed_free. rewrite forallb_forall. split.
  - intros H k s Hk%list_elem_of_In Hs. specialize (H k Hk). rewrite Hs in H.
    apply negb_true_iff, H.
  - intros H k Hk%list_elem_of_In. destruct (m !! k) as [[s|n]|] eqn:E; try reflexivity.
    apply negb_true_iff, (H k s Hk E).
Qed.

End SamePrefix.

(** ** Further properties of the module body *)

(** X1.  When the first listed key that does not hold a string is absent,
    the module body stops there with [KeyError] of that key: the listed
    keys before it are already rewritten, every other entry is as it
    was. *)
Theorem X1_missing_listed_key_stops_loop (sys_prefix : string)
    (m : gmap string value) (old_prefix : string) (pre : list string)
    (key : string) (post : list string) :
  keys_to_replace = pre ++ key :: post ->
  prefix m = inr old_prefix ->
  all_str pre m = true ->
  m !! key = None ->
  exists m1,
    load_and_normalize sys_prefix m = Raised (KeyError key) m1
    /\ (forall k s, k ∈ pre -> m !! k = Some (VStr s) ->
          m1 !! k = Some (VStr (Str.replace old_prefix sys_prefix s)))
    /\ (forall k, k ∉ pre -> m1 !! k = m !! k).
Proof.
  intros Hkeys Hp Hall Hkey.
  destruct (for_keys_stops old_prefix sys_prefix pre key post m)
    as (m1 & _ & Hk1 & Hpre & Hother & Hrun); [|exact Hall|].
  { rewrite <- Hkeys. apply keys_to_replace_NoDup. }
  exists m1. split; [|split; assumption].
  unfold load_and_normalize, normalize. rewrite Hp, Hkeys, Hrun.
  rewrite loop_body_missing by congruence. reflexivity.
Qed.

(** X1 on the installation under [/opt/app] without ['LIBDIR']: ['LIBDEST']
    comes before ['LIBDIR'] in the list and is rewritten, ['MANDIR'] comes
    after it and is not. *)
Lemma X1_missing_listed_key_stops_loop_witness :
  exists m1,
    load_and_normalize "/usr/local" scenario_no_libdir = Raised (KeyError "LIBDIR") m1
    /\ m1 !! "LIBDEST" = Some (VStr "/usr/local/lib/app3.9")
    /\ m1 !! "MANDIR" = Some (VStr "/opt/app/share/man").
Proof.
  destruct (X1_missing_listed_key_stops_loop "/usr/local" scenario_no_libdir "/opt/app"
              [ "BINDIR"; "BINLIBDEST"; "CONFINCLUDEDIR"; "CONFINCLUDEPY"; "DESTDIRS";
                "DESTLIB"; "DESTSHARED"; "INCLDIRSTOMAKE"; "INCLUDEDIR"; "INCLUDEPY";
                "LIBDEST" ]
              "LIBDIR"
              [ "LIBPC"; "LIBPL"; "MACHDESTLIB"; "MANDIR"; "SCRIPTDIR"; "datarootdir";
                "exec_prefix"; "TZPATH" ])
    as (m1 & Hrun & Hpre & Hother); try (vm_compute; reflexivity).
  exists m1. split; [exact Hrun|]. split.
  - apply (Hpre "LIBDEST" "/opt/app/lib/app3.9");
      [refine (bool_decide_unpack _ _); vm_compute; exact I|vm_compute; reflexivity].
  - rewrite Hother; [vm_compute; reflexivity|].
    refine (bool_decide_unpack _ _). vm_compute. exact I.
Defined.



(** X3.  The module body runs to its end exactly when every listed key is
    present and holds a string. *)
Theorem X3_ends_normally_iff_listed_strings (sys_prefix : string)
    (m : gmap string value) :
  raised (load_and_normalize sys_prefix m) = None
  <-> all_str keys_to_replace m = true.
Proof.
  split.
  - intros H. destruct (load_and_normalize sys_prefix m) as [m'|e m'] eqn:E;
      [|discriminate H].
    apply load_and_normalize_Done in E as (old & _ & Hn).
    exact (for_keys_Done_str _ _ _ _ _ Hn).
  - intros Hall.
    destruct (load_and_normalize_total sys_prefix m Hall) as (old & m' & _ & _ & Hl).
    rewrite Hl. reflexivity.
Qed.

(** X4.  The module body raises [TypeError] exactly when ['BINDIR'] holds
    an [int]; the table is then as it was, since the loop, which raises
    [KeyError] or [AttributeError] only, has not been entered. *)
Theorem X4_type_error_iff_int_bindir (sys_prefix : string)
    (m : gmap string value) :
  (raised (load_and_normalize sys_prefix m) = Some TypeError
   <-> exists n, m !! "BINDIR" = Some (VInt n))
  /\ (raised (load_and_normalize sys_prefix m) = Some TypeError ->
      final (load_and_normalize sys_prefix m) = m).
Proof.
  assert (raised (load_and_normalize sys_prefix m) = Some TypeError ->
          exists n, m !! "BINDIR" = Some (VInt n)) as Hfwd.
  { unfold load_and_normalize, prefix, getitem.
    destruct (m !! "BINDIR") as [[s|n]|]; simpl.
    - intros [[=]|(k & _ & [=])]%for_keys_raised.
    - eauto.
    - discriminate. }
  assert ((exists n, m !! "BINDIR" = Some (VInt n)) ->
          load_and_normalize sys_prefix m = Raised TypeError m) as Hbwd.
  { intros [n Hn]. unfold load_and_normalize, prefix, getitem. rewrite Hn.
    reflexivity. }
  split; [split|].
  - exact Hfwd.
  - intros H. rewrite (Hbwd H). reflexivity.
  - intros H. rewrite (Hbwd (Hfwd H)). reflexivity.
Qed.

Lemma X4_type_error_iff_int_bindir_witness :
  raised (load_and_normalize "/usr/local" scenario_int_bindir) = Some TypeError
  /\ final (load_and_normalize "/usr/local" scenario_int_bindir) = scenario_int_bindir.
Proof.
  destruct (X4_type_error_iff_int_bindir "/usr/local" scenario_int_bindir) as [Hiff Hsame].
  assert (raised (load_and_normalize "/usr/local" scenario_int_bindir) = Some TypeError)
    as H by (apply Hiff; exists 7%Z; vm_compute; reflexivity).
  split; [exact H|exact (Hsame H)].
Defined.

(** X5.  A ['BINDIR'] entry of at most four characters gives the empty
    prefix, and [replace] then puts [sys.prefix] before every character of
    a listed value and after the last one. *)
Theorem X5_short_bindir_interleaves (sys_prefix : string) (m : gmap string value)
    (b key s : string) :
  m !! "BINDIR" = Some (VStr b) ->
  Str.len b <= 4 ->
  all_str keys_to_replace m = true ->
  key ∈ keys_to_replace ->
  m !! key = Some (VStr s) ->
  prefix m = inr EmptyString
  /\ exists m',
       load_and_normalize sys_prefix m = Done m'
       /\ m' !! key = Some (VStr (Str.interleave sys_prefix s))
       /\ Str.len (Str.interleave sys_prefix s)
          = Str.len s + (Str.len s + 1) * Str.len sys_prefix.
Proof.
  intros Hb Hlen Hall Hkey Hs.
  assert (prefix m = inr EmptyString) as Hp.
  { apply prefix_inr. exists b. split; [exact Hb|].
    symmetry. apply slice_to_neg_short, Hlen. }
  split; [exact Hp|].
  destruct (load_and_normalize_total sys_prefix m Hall) as (old & m' & Hp' & Hn & Hl).
  assert (old = EmptyString) as -> by congruence.
  exists m'. split; [exact Hl|]. split; [|apply len_interleave].
  exact (for_keys_listed _ _ _ _ _ _ _ keys_to_replace_NoDup Hn Hkey Hs).
Qed.

Lemma X5_short_bindir_interleaves_witness :
  prefix scenario_short_bindir = inr EmptyString
  /\ exists m',
       load_and_normalize "X" scenario_short_bindir = Done m'
       /\ m' !! "LIBDIR" = Some (VStr "X/XoXpXtX/XaXpXpX/XlXiXbX")
       /\ Str.len "X/XoXpXtX/XaXpXpX/XlXiXbX" = 12 + (12 + 1) * 1.
Proof.
  apply (X5_short_bindir_interleaves "X" scenario_short_bindir "bin" "LIBDIR"
           "/opt/app/lib").
  - vm_compute. reflexivity.
  - vm_compute. lia.
  - vm_compute. reflexivity.
  - refine (bool_decide_unpack _ _). vm_compute. exact I.
  - vm_compute. reflexivity.
Defined.

(** X6.  When [sys.prefix] is the derived prefix itself, the module body
    leaves the whole table as it was, however it ends. *)
Theorem X6_same_prefix_changes_nothing (m : gmap string value)
    (old_prefix : string) :
  prefix m = inr old_prefix ->
  final (load_and_normalize old_prefix m) = m.
Proof.
  intros Hp. unfold load_and_normalize, normalize. rewrite Hp. apply for_keys_same.
Qed.

Lemma X6_same_prefix_changes_nothing_witness :
  final (load_and_normalize "/opt/app" scenario) = scenario.
Proof.
  apply (X6_same_prefix_changes_nothing scenario "/opt/app").
  vm_compute. reflexivity.
Defined.

(** X7.  After a run to the end, a listed key holds the value it held
    before exactly when the derived prefix did not occur in that value or
    [sys.prefix] is the derived prefix. *)
Theorem X7_listed_value_unchanged_iff (sys_prefix : string)
    (m : gmap string value) (old_prefix key s : string) :
  all_str keys_to_replace m = true ->
  prefix m = inr old_prefix ->
  key ∈ keys_to_replace ->
  m !! key = Some (VStr s) ->
  exists m',
    load_and_normalize sys_prefix m = Done m'
    /\ (m' !! key = Some (VStr s)
        <-> Str.contains old_prefix s = false \/ old_prefix = sys_prefix).
Proof.
  intros Hall Hp Hkey Hs.
  destruct (load_and_normalize_total sys_prefix m Hall) as (old & m' & Hp' & Hn & Hl).
  assert (old = old_prefix) as -> by congruence.
  exists m'. split; [exact Hl|].
  rewrite (for_keys_listed _ _ _ _ _ _ _ keys_to_replace_NoDup Hn Hkey Hs).
  rewrite <- replace_fixed_iff. split; [intros [= H]; exact H|intros ->; reflexivity].
Qed.

Lemma X7_listed_value_unchanged_iff_witness :
  exists m',
    load_and_normalize "/usr/local" scenario = Done m'
    /\ (m' !! "LIBPL" = Some (VStr "/OPT/APP/lib/config")
        <-> Str.contains "/opt/app" "/OPT/APP/lib/config" = false
            \/ "/opt/app" = "/usr/local").
Proof.
  apply (X7_listed_value_unchanged_iff "/usr/local" scenario "/opt/app" "LIBPL").
  - vm_compute. reflexivity.
  - vm_compute. reflexivity.
  - refine (bool_decide_unpack _ _). vm_compute. exact I.
  - vm_compute. reflexivity.
Defined.

(** X8.  However the module body ends, an entry that held a string holds
    a string, an entry that held an [int] holds the same [int], and an
    absent key is still absent. *)
Theorem X8_value_types_kept (sys_prefix : string) (m : gmap string value)
    (key : string) :
  is_str (final (load_and_normalize sys_prefix m) !! key) = is_str (m !! key)
  /\ (forall n, m !! key = Some (VInt n) ->
        final (load_and_normalize sys_prefix m) !! key = Some (VInt n))
  /\ (m !! key = None -> final (load_and_normalize sys_prefix m) !! key = None).
Proof.
  unfold load_and_normalize, normalize.
  destruct (prefix m) as [e|old]; [repeat split; auto|].
  split; [apply for_keys_is_str|]. split; [intros n; apply for_keys_int|].
  intros Hnone. apply not_elem_of_dom. rewrite for_keys_dom.
  apply not_elem_of_dom, Hnone.
Qed.

Lemma X8_value_types_kept_witness :
  final (load_and_normalize "/usr/local" scenario) !! "SIZEOF_INT" = Some (VInt 4)
  /\ final (load_and_normalize "/usr/local" scenario) !! "HAVE_FORK" = None.
Proof.
  destruct (X8_value_types_kept "/usr/local" scenario "SIZEOF_INT") as (_ & Hint & _).
  destruct (X8_value_types_kept "/usr/local" scenario "HAVE_FORK") as (_ & _ & Hnone).
  split; [apply Hint|apply Hnone]; vm_compute; reflexivity.
Defined.

Section TwoRuns.
Implicit Types (m : gmap string value) (k key : string) (keys : list string).

(** What a run of the loop to its end makes of the table. *)
Lemma for_keys_Done_lookup old_prefix sys_prefix keys m m' :
  NoDup keys ->
  for_keys old_prefix sys_prefix keys m = Done m' ->
  (forall k, k ∈ keys ->
     exists s, m !! k = Some (VStr s)
               /\ m' !! k = Some (VStr (Str.replace old_prefix sys_prefix s)))
  /\ (forall k, k ∉ keys -> m' !! k = m !! k).
Proof.
  intros Hnd Hrun. split.
  - intros k Hk.
    destruct (proj1 (all_str_spec _ _) (for_keys_Done_str _ _ _ _ _ Hrun) k Hk) as [s Hs].
    exists s. split; [exact Hs|]. exact (for_keys_listed _ _ _ _ _ _ _ Hnd Hrun Hk Hs).
  - intros k Hk. pose proof (for_keys_other old_prefix sys_prefix keys m k Hk) as H.
    rewrite Hrun in H. exact H.
Qed.

(** A second run of the loop, with any two prefixes, on the table that a
    first run delivered. *)
Lemma for_keys_again old_prefix sys_prefix p q keys m m1 :
  NoDup keys ->
  for_keys old_prefix sys_prefix keys m = Done m1 ->
  exists m2,
    for_keys p q keys m1 = Done m2
    /\ (forall k s, k ∈ keys -> m !! k = Some (VStr s) ->
          m2 !! k = Some (VStr (Str.replace p q (Str.replace old_prefix sys_prefix s))))
    /\ (forall k, k ∉ keys -> m2 !! k = m !! k).
Proof.
  intros Hnd H1. destruct (for_keys_Done_lookup _ _ _ _ _ Hnd H1) as [Hin1 Hout1].
  destruct (for_keys_total p q keys m1) as [m2 H2].
  { apply all_str_spec. intros k Hk. destruct (Hin1 k Hk) as (s & _ & Hs). eauto. }
  exists m2. split; [exact H2|].
  destruct (for_keys_Done_lookup _ _ _ _ _ Hnd H2) as [Hin2 Hout2]. split.
  - intros k s Hk Hs. destruct (Hin1 k Hk) as (s1 & Hs1 & Hm1).
    destruct (Hin2 k Hk) as (s2 & Hs2 & Hm2). congruence.
  - intros k Hk. rewrite Hout2, Hout1 by exact Hk. reflexivity.
Qed.

(** The ['BINDIR'] entry after a run to the end. *)
Lemma load_and_normalize_bindir sys_prefix m old_prefix sfx :
  m !! "BINDIR" = Some (VStr (old_prefix +:+ sfx)) ->
  Str.len sfx = 4 ->
  old_prefix <> EmptyString ->
  Str.contains old_prefix sfx = false ->
  all_str keys_to_replace m = true ->
  exists m',
    normalize old_prefix sys_prefix m = Done m'
    /\ load_and_normalize sys_prefix m = Done m'
    /\ m' !! "BINDIR" = Some (VStr (sys_prefix +:+ sfx))
    /\ prefix m' = inr sys_prefix.
Proof.
  intros Hb Hlen Hold Hsfx Hall.
  destruct (load_and_normalize_total sys_prefix m Hall) as (old & m' & Hp & Hn & Hl).
  assert (old = old_prefix) as ->.
  { apply prefix_inr in Hp as (s & Hs & ->). rewrite Hb in Hs. injection Hs as <-.
    rewrite <- Hlen. apply slice_to_neg_app. }
  assert (m' !! "BINDIR" = Some (VStr (sys_prefix +:+ sfx))) as Hb'.
  { rewrite (for_keys_listed _ _ _ _ _ _ _ keys_to_replace_NoDup Hn bindir_listed Hb).
    rewrite replace_app_old by exact Hold.
    rewrite (replace_no_occ old_prefix sys_prefix sfx) by (apply contains_false, Hsfx).
    reflexivity. }
  exists m'. repeat split; try assumption.
  apply prefix_inr. exists (sys_prefix +:+ sfx). split; [exact Hb'|].
  rewrite <- Hlen. symmetry. apply slice_to_neg_app.
Qed.

End TwoRuns.

(** X9.  When ['BINDIR'] is a non-empty prefix followed by four characters
    in which that prefix does not occur, a run to the end leaves
    [sys.prefix] followed by the same four characters under ['BINDIR']: the
    prefix derived from the relocated table is [sys.prefix]. *)
Theorem X9_relocated_table_derives_sys_prefix (sys_prefix : string)
    (m : gmap string value) (old_prefix sfx : string) :
  m !! "BINDIR" = Some (VStr (old_prefix +:+ sfx)) ->
  Str.len sfx = 4 ->
  old_prefix <> EmptyString ->
  Str.contains old_prefix sfx = false ->
  all_str keys_to_replace m = true ->
  exists m',
    load_and_normalize sys_prefix m = Done m'
    /\ m' !! "BINDIR" = Some (VStr (sys_prefix +:+ sfx))
    /\ prefix m' = inr sys_prefix.
Proof.
  intros Hb Hlen Hold Hsfx Hall.
  destruct (load_and_normalize_bindir sys_prefix m old_prefix sfx Hb Hlen Hold Hsfx Hall)
    as (m' & _ & Hl & Hb' & Hp'). eauto.
Qed.

Lemma X9_relocated_table_derives_sys_prefix_witness :
  exists m',
    load_and_normalize "/usr/local" scenario = Done m'
    /\ m' !! "BINDIR" = Some (VStr ("/usr/local" +:+ "/bin"))
    /\ prefix m' = inr "/usr/local".
Proof.
  apply (X9_relocated_table_derives_sys_prefix "/usr/local" scenario "/opt/app" "/bin").
  - vm_compute. reflexivity.
  - reflexivity.
  - discriminate.
  - vm_compute. reflexivity.
  - vm_compute. reflexivity.
Defined.

(** X10.  Under the same conditions, running the whole module body again
    on the table it delivered changes nothing: the prefix is derived anew
    and is [sys.prefix] already. *)
Theorem X10_second_module_run_changes_nothing (sys_prefix : string)
    (m : gmap string value) (old_prefix sfx : string) :
  m !! "BINDIR" = Some (VStr (old_prefix +:+ sfx)) ->
  Str.len sfx = 4 ->
  old_prefix <> EmptyString ->
  Str.contains old_prefix sfx = false ->
  all_str keys_to_replace m = true ->
  exists m',
    load_and_normalize sys_prefix m = Done m'
    /\ load_and_normalize sys_prefix m' = Done m'.
Proof.
  intros Hb Hlen Hold Hsfx Hall.
  destruct (load_and_normalize_bindir sys_prefix m old_prefix sfx Hb Hlen Hold Hsfx Hall)
    as (m' & Hn & Hl & _ & Hp').
  exists m'. split; [exact Hl|].
  destruct (for_keys_again _ _ sys_prefix sys_prefix _ _ _ keys_to_replace_NoDup Hn)
    as (m2 & H2 & _).
  pose proof (for_keys_same sys_prefix keys_to_replace m') as Hsame.
  rewrite H2 in Hsame. simpl in Hsame. subst m2.
  unfold load_and_normalize, normalize. rewrite Hp'. exact H2.
Qed.

Lemma X10_second_module_run_changes_nothing_witness :
  exists m',
    load_and_normalize "/opt" scenario = Done m'
    /\ load_and_normalize "/opt" m' = Done m'.
Proof.
  apply (X10_second_module_run_changes_nothing "/opt" scenario "/opt/app" "/bin").
  - vm_compute. reflexivity.
  - reflexivity.
  - discriminate.
  - vm_compute. reflexivity.
  - vm_compute. reflexivity.
Defined.

(** X11.  A normalization pass can be undone: when no listed value
    contains the new prefix beforehand and the new prefix is unbordered (no
    proper non-empty end of it is a start of it), the pass from the new
    prefix back to a non-empty old one restores the table. *)
Theorem X11_normalize_back_restores (old_prefix new_prefix : string)
    (m m1 : gmap string value) :
  old_prefix <> EmptyString ->
  Str.self_border new_prefix = false ->
  listed_free new_prefix m = true ->
  normalize old_prefix new_prefix m = Done m1 ->
  normalize new_prefix old_prefix m1 = Done m.
Proof.
  intros Hold Hsb Hfree H1. unfold normalize in *.
  destruct (for_keys_again _ _ new_prefix old_prefix _ _ _ keys_to_replace_NoDup H1)
    as (m2 & H2 & Hin & Hout).
  rewrite H2. f_equal. apply map_eq. intros k.
  destruct (decide (k ∈ keys_to_replace)) as [Hk|Hk]; [|apply Hout, Hk].
  destruct (proj1 (all_str_spec _ _) (for_keys_Done_str _ _ _ _ _ H1) k Hk) as [s Hs].
  rewrite (Hin k s Hk Hs), Hs, replace_undo; [reflexivity|assumption..|].
  exact (proj1 (listed_free_spec _ _) Hfree k s Hk Hs).
Qed.

Lemma X11_normalize_back_restores_witness :
  normalize "/usr/local" "/opt/app"
    (final (normalize "/opt/app" "/usr/local" scenario))
  = Done scenario.
Proof.
  apply (X11_normalize_back_restores "/opt/app" "/usr/local" scenario).
  - discriminate.
  - vm_compute. reflexivity.
  - vm_compute. reflexivity.
  - vm_compute. reflexivity.
Defined.

(** X12.  For a non-empty pattern, [replace] returns the left-to-right
    replacement of all non-overlapping occurrences that [Str.Replaced]
    describes, and no other string is such a replacement. *)
Theorem X12_replace_is_the_leftmost_replacement (old new s r : string) :
  old <> EmptyString ->
  Str.Replaced old new s r <-> r = Str.replace old new s.
Proof.
  intros Hold. split.
  - apply Replaced_replace, Hold.
  - intros ->. apply replace_Replaced, Hold.
Qed.

Lemma X12_replace_is_the_leftmost_replacement_witness :
  Str.Replaced "aa" "b" "aaaaa" "bba".
Proof.
  apply (X12_replace_is_the_leftmost_replacement "aa" "b" "aaaaa" "bba").
  - discriminate.
  - reflexivity.
Defined.

(** X13.  The order of the listed keys does not matter for a run to the
    end: the loop over any rearrangement of [keys_to_replace] delivers the
    same table. *)
Theorem X13_key_order_is_immaterial (old_prefix sys_prefix : string)
    (keys : list string) (m : gmap string value) :
  keys ≡ₚ keys_to_replace ->
  all_str keys_to_replace m = true ->
  for_keys old_prefix sys_prefix keys m = normalize old_prefix sys_prefix m.
Proof.
  intros Hperm Hall. unfold normalize.
  assert (NoDup keys) as Hnd by (rewrite Hperm; apply keys_to_replace_NoDup).
  destruct (for_keys_total old_prefix sys_prefix keys_to_replace m Hall) as [m2 H2].
  destruct (for_keys_total old_prefix sys_prefix keys m) as [m1 H1].
  { apply all_str_spec. intros k Hk. rewrite Hperm in Hk.
    exact (proj1 (all_str_spec _ _) Hall k Hk). }
  rewrite H1, H2. f_equal. apply map_eq. intros k.
  destruct (for_keys_Done_lookup _ _ _ _ _ Hnd H1) as [Hin1 Hout1].
  destruct (for_keys_Done_lookup _ _ _ _ _ keys_to_replace_NoDup H2) as [Hin2 Hout2].
  destruct (decide (k ∈ keys_to_replace)) as [Hk|Hk].
  - destruct (Hin2 k Hk) as (s2 & Hs2 & ->).
    rewrite <- Hperm in Hk. destruct (Hin1 k Hk) as (s1 & Hs1 & ->). congruence.
  - rewrite (Hout2 k Hk). apply Hout1. rewrite Hperm. exact Hk.
Qed.

Lemma X13_key_order_is_immaterial_witness :
  for_keys "/opt/app" "/usr/local" (reverse keys_to_replace) scenario
  = normalize "/opt/app" "/usr/local" scenario.
Proof.
  apply (X13_key_order_is_immaterial "/opt/app" "/usr/local"
           (reverse keys_to_replace) scenario).
  - apply reverse_Permutation.
  - vm_compute. reflexivity.
Defined.
